(** * EGX30 stock pipeline: extraction, validation and Hive load script

    A shallow embedding of [egx30_stock_pipeline.py] (the two Python
    callables of the Airflow DAG, [extract_stock_data] and
    [validate_and_prepare]) together with the properties that the
    pipeline's specification states about them.

    Conventions.
    - A Python [str] is a [string]; its characters stand for code points
      below 256.
    - Exceptions are explicit: fallible code lives in [result], and
      [try ... except] is a [match] on the outcome.
    - The network and the file system are explicit arguments: a reply
      oracle for [urlopen], a finite map from paths to contents for files.
    - Binary floating point is an interface ([FloatOps]); the pipeline is
      verified for every implementation of it. *)

From Stdlib Require Import Ascii.
From stdpp Require Import base decidable option list strings pretty gmap.

Set Warnings "-register-all".

Local Open Scope Z_scope.
Local Open Scope list_scope.

(** ** Python strings *)

Section PyStr.

Definition LF : ascii := ascii_of_nat 10.
Definition CR : ascii := ascii_of_nat 13.
Definition nl : string := String LF "".

(** [str.isspace] on a code point below 256: TAB..CR, FS..US, SPACE,
    NEL and NBSP. *)
Definition py_isspace (c : ascii) : bool :=
  let n := nat_of_ascii c in
  ((9 <=? n)%nat && (n <=? 13)%nat) || ((28 <=? n)%nat && (n <=? 32)%nat)
  || (n =? 133)%nat || (n =? 160)%nat.

Fixpoint str_lstrip (s : string) : string :=
  match s with
  | String c r => if py_isspace c then str_lstrip r else s
  | EmptyString => EmptyString
  end.

Fixpoint str_rstrip (s : string) : string :=
  match s with
  | String c r =>
      match str_rstrip r with
      | EmptyString => if py_isspace c then EmptyString else String c EmptyString
      | r' => String c r'
      end
  | EmptyString => EmptyString
  end.

(** [s.strip()] *)
Definition str_strip (s : string) : string := str_rstrip (str_lstrip s).

(** [s.split(sep)] for a one-character separator: every separator cuts,
    empty fields are kept, and the empty string gives one empty field. *)
Fixpoint str_split (sep : ascii) (s : string) : list string :=
  match s with
  | EmptyString => [EmptyString]
  | String c r =>
      if decide (c = sep) then EmptyString :: str_split sep r
      else match str_split sep r with
           | f :: fs => String c f :: fs
           | [] => [String c EmptyString]
           end
  end.

(** [c in s] for a character [c]. *)
Fixpoint str_contains (c : ascii) (s : string) : bool :=
  match s with
  | EmptyString => false
  | String c' r => bool_decide (c' = c) || str_contains c r
  end.

(** [s.count(c)] for a character [c]. *)
Fixpoint str_count (c : ascii) (s : string) : nat :=
  match s with
  | EmptyString => O
  | String c' r => (if decide (c' = c) then 1 else 0) + str_count c r
  end.

(** [s.startswith(p)] *)
Fixpoint str_startswith (s p : string) {struct p} : bool :=
  match p with
  | EmptyString => true
  | String a p' =>
      match s with
      | String b s' => if decide (a = b) then str_startswith s' p' else false
      | EmptyString => false
      end
  end.

(** [s.removesuffix(suffix)] *)
Fixpoint str_removesuffix (s suffix : string) : string :=
  if decide (s = suffix) then EmptyString
  else match s with
       | String c r => String c (str_removesuffix r suffix)
       | EmptyString => EmptyString
       end.

(** [s.replace(old, new)] for a non-empty [old]: the occurrences of [old]
    are found from left to right and do not overlap.  [skip] counts the
    characters of a matched occurrence that are still to be passed. *)
Fixpoint replace_from (old new : string) (skip : nat) (s : string) : string :=
  match s with
  | EmptyString => EmptyString
  | String c r =>
      match skip with
      | S k => replace_from old new k r
      | O =>
          if str_startswith s old
          then new +:+ replace_from old new (String.length old - 1) r
          else String c (replace_from old new 0 r)
      end
  end.

Definition str_replace (old new s : string) : string := replace_from old new 0 s.

(** [sep.join(parts)] with the empty separator. *)
Definition str_concat (parts : list string) : string :=
  foldr String.app EmptyString parts.

(** Reading a text file: universal newlines turn CR LF and a lone CR
    into LF. *)
Fixpoint universal_newlines (s : string) : string :=
  match s with
  | EmptyString => EmptyString
  | String c r =>
      if decide (c = CR) then
        String LF match r with
                  | String c' r' =>
                      if decide (c' = LF) then universal_newlines r'
                      else universal_newlines r
                  | EmptyString => EmptyString
                  end
      else String c (universal_newlines r)
  end.

(** The lines a file object yields, each with its terminating LF (the
    last line may lack one). *)
Fixpoint file_lines (s : string) : list string :=
  match s with
  | EmptyString => []
  | String c r =>
      if decide (c = LF) then nl :: file_lines r
      else match file_lines r with
           | l :: ls => String c l :: ls
           | [] => [String c EmptyString]
           end
  end.

End PyStr.

(** ** Exceptions *)

Inductive exn :=
| ValueError (msg : string)
| TypeError
| AttributeError
| KeyError
| IndexError
| OSError (msg : string).

Inductive result (A : Type) :=
| Ok (a : A)
| Raise (e : exn).
Arguments Ok {A} a.
Arguments Raise {A} e.

Global Instance result_ret : MRet result := @Ok.
Global Instance result_bind : MBind result := λ A B f m,
  match m with
  | Ok a => f a
  | Raise e => Raise e
  end.

Definition is_ValueError (e : exn) : bool :=
  match e with
  | ValueError _ => true
  | _ => false
  end.

(** ** Floating point *)

(** What the pipeline asks of CPython's [float]: the constructor from a
    string ([None] stands for the [ValueError] it raises), the text that
    [str], [repr] and an f-string give, [round(x, 2)], and the truth
    value.  The pipeline never does arithmetic on floats. *)
Class FloatOps := {
  float : Type;
  float_of_str : string → option float;
  float_repr : float → string;
  float_round2 : float → float;
  float_bool : float → bool
}.

(** ** JSON documents as Python values *)

Section PyValues.
Context `{FloatOps}.

(** The value [json.loads] returns.  An object keeps its members in
    document order; on a repeated key the last member wins. *)
Inductive json :=
| JNull
| JBool (b : bool)
| JInt (z : Z)
| JFloat (x : float)
| JStr (s : string)
| JArr (items : list json)
| JObj (members : list (string * json)).

(** A Python number: what [round] returns and an f-string prints. *)
Inductive number :=
| NInt (z : Z)
| NFloat (x : float).

Definition str_of_number (n : number) : string :=
  match n with
  | NInt z => pretty z
  | NFloat x => float_repr x
  end.

Fixpoint dict_lookup (key : string) (members : list (string * json)) : option json :=
  match members with
  | [] => None
  | (k, v) :: rest =>
      match dict_lookup key rest with
      | Some v' => Some v'
      | None => if decide (k = key) then Some v else None
      end
  end.

(** [d.get(key, default)]: only a dict has [get]. *)
Definition py_get (d : json) (key : string) (default_value : json) : result json :=
  match d with
  | JObj members => Ok (default default_value (dict_lookup key members))
  | _ => Raise AttributeError
  end.

(** [bool(v)] *)
Definition py_bool (v : json) : bool :=
  match v with
  | JNull => false
  | JBool b => b
  | JInt z => negb (z =? 0)
  | JFloat x => float_bool x
  | JStr s => negb (bool_decide (s = ""))
  | JArr items => negb (bool_decide (items = []))
  | JObj members => negb (bool_decide (members = []))
  end.

(** [v[0]]: a dict from JSON has no integer key. *)
Definition py_index0 (v : json) : result json :=
  match v with
  | JArr (x :: _) => Ok x
  | JArr [] => Raise IndexError
  | JStr (String c _) => Ok (JStr (String c ""))
  | JStr EmptyString => Raise IndexError
  | JObj _ => Raise KeyError
  | JNull | JBool _ | JInt _ | JFloat _ => Raise TypeError
  end.

Definition py_is_None (v : json) : bool :=
  match v with
  | JNull => true
  | _ => false
  end.

(** [round(v, 2)]: an int stays an int, a bool becomes an int, a float is
    rounded; nothing else has [__round__]. *)
Definition py_round2 (v : json) : result number :=
  match v with
  | JInt z => Ok (NInt z)
  | JBool b => Ok (NInt (if b then 1 else 0))
  | JFloat x => Ok (NFloat (float_round2 x))
  | JNull | JStr _ | JArr _ | JObj _ => Raise TypeError
  end.

End PyValues.

(** ** The world outside the process *)

(** The file system: contents by path. *)
Abbreviation files := (gmap string string).

(** The price source.  [net i url] is the outcome of the [i]-th request of
    a run: [urlopen], [read], [decode] and [json.loads] either raise or
    give the parsed document.  The source may answer the same URL
    differently at different times. *)
Definition network `{FloatOps} : Type := nat → string → result json.

(** ** Stage 1: [extract_stock_data] *)

Module Extract.
Section Defs.
Context `{FloatOps}.

(** An element of [all_data]. *)
Record price_record := {
  date : string;
  symbol : string;
  price : number
}.

Definition egx_symbols : list string := [
  "EGS01041C010.CA"; "EGS01071C017.CA"; "EGS01081C016.CA";
  "EGS02021C011.CA"; "EGS02051C018.CA"; "EGS02091C014.CA";
  "EGS02211C018.CA"; "EGS02291C010.CA"; "EGS07061C012.CA"
].

Definition url (symbol : string) : string :=
  "https://query1.finance.yahoo.com/v8/finance/chart/" +:+ symbol
  +:+ "?interval=1d&range=1d".

Definition clean_symbol (symbol : string) : string :=
  str_replace ".CA" "" symbol.

(** The walk through the document down to [close_prices[0]]: [Ok None]
    where a guard of the code is false, [Raise] where the walk
    raises. *)
Definition first_close (data : json) : result (option json) :=
  chart ← py_get data "chart" (JObj []);
  result ← py_get chart "result" (JArr []);
  if py_bool result then
    result0 ← py_index0 result;
    indicators ← py_get result0 "indicators" (JObj []);
    quotes ← py_get indicators "quote" (JArr [JObj []]);
    quote ← py_index0 quotes;
    close_prices ← py_get quote "close" (JArr []);
    if py_bool close_prices then
      close0 ← py_index0 close_prices;
      if py_is_None close0 then Ok None else Ok (Some close0)
    else Ok None
  else Ok None.

(** The body of the [try]. *)
Definition try_body (net : network) (execution_date : string)
    (i : nat) (symbol : string) (all_data : list price_record)
    : result (list price_record) :=
  data ← net i (url symbol);
  close ← first_close data;
  match close with
  | Some close0 =>
      price ← py_round2 close0;
      Ok (all_data ++ [{| date := execution_date;
                          symbol := clean_symbol symbol;
                          price := price |}])
  | None => Ok all_data
  end.

(** One turn of the loop: [except Exception] logs and goes on. *)
Definition loop_body (net : network) (execution_date : string)
    (i : nat) (symbol : string) (all_data : list price_record)
    : list price_record :=
  match try_body net execution_date i symbol all_data with
  | Ok all_data' => all_data'
  | Raise _ => all_data
  end.

Fixpoint for_symbols (net : network) (execution_date : string)
    (i : nat) (symbols : list string) (all_data : list price_record)
    : list price_record :=
  match symbols with
  | [] => all_data
  | symbol :: rest =>
      for_symbols net execution_date (S i) rest
        (loop_body net execution_date i symbol all_data)
  end.

Definition csv_path (execution_date : string) : string :=
  "/tmp/egx30_" +:+ execution_date +:+ ".csv".

Definition csv_row (row : price_record) : string :=
  date row +:+ "," +:+ symbol row +:+ "," +:+ str_of_number (price row) +:+ nl.

Definition csv_text (all_data : list price_record) : string :=
  ("date,stock_symbol,price" +:+ nl) +:+ str_concat (csv_row <$> all_data).

(** The stage over a list of symbols; [ds] is [context['ds']].  It
    returns the file system with the CSV written and the CSV's path. *)
Definition extract_from (symbols : list string) (net : network)
    (ds : string) (fs : files) : result (files * string) :=
  let execution_date := ds in
  let all_data := for_symbols net execution_date 0 symbols [] in
  match all_data with
  | [] => Raise (ValueError "No data extracted")
  | _ :: _ =>
      Ok (<[csv_path execution_date := csv_text all_data]> fs,
          csv_path execution_date)
  end.

Definition extract_stock_data : network → string → files → result (files * string) :=
  extract_from egx_symbols.

(** What one symbol contributes to the batch: the loop body run on an
    empty batch. *)
Definition yields (net : network) (execution_date : string)
    (i : nat) (symbol : string) : list price_record :=
  loop_body net execution_date i symbol [].

(** The chart document the source sends for a list of closes. *)
Definition chart_document (closes : list json) : json :=
  JObj [("chart",
         JObj [("result",
                JArr [JObj [("meta", JObj []);
                            ("indicators",
                             JObj [("quote", JArr [JObj [("close", JArr closes)]])])]]);
               ("error", JNull)])].


End Defs.
End Extract.

(** ** Stage 2: [validate_and_prepare] *)

Module Validate.
Section Defs.
Context `{FloatOps}.

(** An element of [data] and of [unique_data]. *)
Record row := {
  symbol : string;
  price : float
}.

(** What the stage takes from the Airflow context: [context['ds']] and
    the value [ti.xcom_pull(task_ids='extract_data')] returns, [None]
    when the extract task pushed nothing. *)
Record context := {
  ds : string;
  xcom_extract_data : option string
}.

(** [float(s)] *)
Definition py_float (s : string) : result float :=
  match float_of_str s with
  | Some x => Ok x
  | None => Raise (ValueError "could not convert string to float")
  end.

(** One turn of the reading loop. *)
Definition loop_body (data : list row) (line : string) : result (list row) :=
  let parts := str_split ","%char (str_strip line) in
  if decide (length parts = 3%nat) then
    match
      (x ← py_float (parts !!! 2%nat);
       Ok (data ++ [{| symbol := parts !!! 1%nat; price := x |}]))
    with
    | Ok data' => Ok data'
    | Raise e => if is_ValueError e then Ok data else Raise e
    end
  else Ok data.

Fixpoint for_lines (lines : list string) (data : list row) : result (list row) :=
  match lines with
  | [] => Ok data
  | line :: rest => data' ← loop_body data line; for_lines rest data'
  end.

(** The loop that removes duplicates. *)
Fixpoint remove_duplicates (data : list row) (seen : gset string)
    (unique_data : list row) : list row :=
  match data with
  | [] => unique_data
  | row :: rest =>
      if decide (symbol row ∈ seen)
      then remove_duplicates rest seen unique_data
      else remove_duplicates rest ({[symbol row]} ∪ seen) (unique_data ++ [row])
  end.

Definition hive_data (execution_date : string) : string :=
  "/tmp/hive_data_" +:+ execution_date +:+ ".txt".

Definition hive_row (row : row) : string :=
  symbol row +:+ "," +:+ float_repr (price row) +:+ nl.

Definition hive_text (unique_data : list row) : string :=
  str_concat (hive_row <$> unique_data).

Definition hql_script (execution_date : string) : string :=
  "/tmp/load_hive_" +:+ execution_date +:+ ".hql".

(** The f-string written to the script, line by line; every line ends
    with LF. *)
Definition hql_lines (hive_data execution_date : string) : list string := [
  "";
  "-- Step 1: Create staging table (TEXT format for CSV)";
  "CREATE TABLE IF NOT EXISTS egx30_staging (";
  "    stock_symbol STRING,";
  "    price DECIMAL(10,2)";
  ")";
  "ROW FORMAT DELIMITED";
  "FIELDS TERMINATED BY ','";
  "STORED AS TEXTFILE;";
  "";
  "-- Step 2: Create final ORC table (partitioned)";
  "CREATE TABLE IF NOT EXISTS egx30_stocks (";
  "    stock_symbol STRING,";
  "    price DECIMAL(10,2)";
  ")";
  "PARTITIONED BY (trade_date STRING)";
  "STORED AS ORC";
  "TBLPROPERTIES ('orc.compress'='SNAPPY');";
  "";
  "-- Step 3: Clear staging";
  "TRUNCATE TABLE egx30_staging;";
  "";
  "-- Step 4: Load CSV into staging";
  "LOAD DATA LOCAL INPATH '" +:+ hive_data +:+ "' INTO TABLE egx30_staging;";
  "";
  "-- Step 5: Drop old partition";
  "ALTER TABLE egx30_stocks DROP IF EXISTS PARTITION (trade_date='"
    +:+ execution_date +:+ "');";
  "";
  "-- Step 6: Insert from staging to final table";
  "INSERT INTO TABLE egx30_stocks PARTITION (trade_date='"
    +:+ execution_date +:+ "')";
  "SELECT stock_symbol, price FROM egx30_staging;";
  "";
  "-- Step 7: Verify";
  "SELECT trade_date, COUNT(*) as record_count ";
  "FROM egx30_stocks ";
  "WHERE trade_date='" +:+ execution_date +:+ "'";
  "GROUP BY trade_date;"
].

Definition hql_text (hive_data execution_date : string) : string :=
  str_concat ((λ l, l +:+ nl) <$> hql_lines hive_data execution_date).

(** [open(csv_path, 'r')] and the whole text the file object will give. *)
Definition open_read (fs : files) (csv_path : option string) : result string :=
  match csv_path with
  | None => Raise TypeError
  | Some path =>
      match fs !! path with
      | Some contents => Ok (universal_newlines contents)
      | None => Raise (OSError "No such file or directory")
      end
  end.

(** The rows read from the lines after the header. *)
Definition read_data (text : string) : result (list row) :=
  for_lines (drop 1 (file_lines text)) [].

(** The stage.  It returns the file system with the two files written
    and the path of the script. *)
Definition validate_and_prepare (ctx : context) (fs : files)
    : result (files * string) :=
  let csv_path := xcom_extract_data ctx in
  let execution_date := ds ctx in
  text ← open_read fs csv_path;
  data ← read_data text;
  let unique_data := remove_duplicates data ∅ [] in
  let hive_data := hive_data execution_date in
  let fs := <[hive_data := hive_text unique_data]> fs in
  let hql_script := hql_script execution_date in
  let fs := <[hql_script := hql_text hive_data execution_date]> fs in
  Ok (fs, hql_script).

(** *** The stage in the words of its specification *)

(** A row is malformed if it does not split into exactly three fields
    or its price field does not parse as a number. *)
Definition malformed (line : string) : Prop :=
  let parts := str_split ","%char (str_strip line) in
  length parts ≠ 3%nat ∨ float_of_str (parts !!! 2%nat) = None.

(** The row a well-formed line stands for. *)
Definition parse_row (line : string) : option row :=
  let parts := str_split ","%char (str_strip line) in
  if decide (length parts = 3%nat) then
    x ← float_of_str (parts !!! 2%nat);
    Some {| symbol := parts !!! 1%nat; price := x |}
  else None.

(** The rows whose symbol is neither in [seen] nor on an earlier row. *)
Fixpoint first_seen (seen : gset string) (data : list row) : list row :=
  match data with
  | [] => []
  | row :: rest =>
      if decide (symbol row ∈ seen) then first_seen seen rest
      else row :: first_seen ({[symbol row]} ∪ seen) rest
  end.

End Defs.
End Validate.

(** ** The load script as a list of statements *)

Module Hive.

Record table_def := {
  name : string;
  columns : list (string * string);
  partitioned_by : list (string * string);
  fields_terminated_by : option string;
  stored_as : string;
  tblproperties : list (string * string)
}.

Inductive stmt :=
| CreateTableIfNotExists (d : table_def)
| TruncateTable (table : string)
| LoadDataLocalInpath (path table : string)
| AlterTableDropIfExistsPartition (table pcol pval : string)
| InsertIntoPartitionSelect (table pcol pval : string) (cols : list string) (source : string)
| SelectCountOfPartition (table pcol pval : string).

(** *** Concrete syntax *)

Fixpoint join (sep : string) (parts : list string) : string :=
  match parts with
  | [] => ""
  | [p] => p
  | p :: rest => p +:+ sep +:+ join sep rest
  end.

Definition render_column (c : string * string) : string := c.1 +:+ " " +:+ c.2.

Definition render_property (p : string * string) : string :=
  "'" +:+ p.1 +:+ "'='" +:+ p.2 +:+ "'".

Definition render_create (d : table_def) : string :=
  "CREATE TABLE IF NOT EXISTS " +:+ name d +:+ " (" +:+ nl
  +:+ "    " +:+ join ("," +:+ nl +:+ "    ") (render_column <$> columns d) +:+ nl
  +:+ ")" +:+ nl
  +:+ match partitioned_by d with
      | [] => ""
      | ps => "PARTITIONED BY (" +:+ join ", " (render_column <$> ps) +:+ ")" +:+ nl
      end
  +:+ match fields_terminated_by d with
      | Some sep => "ROW FORMAT DELIMITED" +:+ nl
                    +:+ "FIELDS TERMINATED BY '" +:+ sep +:+ "'" +:+ nl
      | None => ""
      end
  +:+ "STORED AS " +:+ stored_as d
  +:+ match tblproperties d with
      | [] => ""
      | ps => nl +:+ "TBLPROPERTIES (" +:+ join ", " (render_property <$> ps) +:+ ")"
      end
  +:+ ";".

Definition render (s : stmt) : string :=
  match s with
  | CreateTableIfNotExists d => render_create d
  | TruncateTable t => "TRUNCATE TABLE " +:+ t +:+ ";"
  | LoadDataLocalInpath path t =>
      "LOAD DATA LOCAL INPATH '" +:+ path +:+ "' INTO TABLE " +:+ t +:+ ";"
  | AlterTableDropIfExistsPartition t pcol pval =>
      "ALTER TABLE " +:+ t +:+ " DROP IF EXISTS PARTITION ("
      +:+ pcol +:+ "='" +:+ pval +:+ "');"
  | InsertIntoPartitionSelect t pcol pval cols source =>
      "INSERT INTO TABLE " +:+ t +:+ " PARTITION (" +:+ pcol +:+ "='" +:+ pval +:+ "')"
      +:+ nl +:+ "SELECT " +:+ join ", " cols +:+ " FROM " +:+ source +:+ ";"
  | SelectCountOfPartition t pcol pval =>
      "SELECT " +:+ pcol +:+ ", COUNT(*) as record_count " +:+ nl
      +:+ "FROM " +:+ t +:+ " " +:+ nl
      +:+ "WHERE " +:+ pcol +:+ "='" +:+ pval +:+ "'" +:+ nl
      +:+ "GROUP BY " +:+ pcol +:+ ";"
  end.

(** A script: statements, each under a comment line that numbers the
    step; a blank line opens the script and separates the steps. *)
Definition render_step (i : nat) (step : string * stmt) : string :=
  nl +:+ "-- Step " +:+ pretty (S i) +:+ ": " +:+ step.1 +:+ nl
  +:+ render step.2 +:+ nl.

Definition render_script (steps : list (string * stmt)) : string :=
  str_concat (imap render_step steps).

(** *** The script of the pipeline *)

Definition egx30_staging : table_def := {|
  name := "egx30_staging";
  columns := [("stock_symbol", "STRING"); ("price", "DECIMAL(10,2)")];
  partitioned_by := [];
  fields_terminated_by := Some ",";
  stored_as := "TEXTFILE";
  tblproperties := []
|}.

Definition egx30_stocks : table_def := {|
  name := "egx30_stocks";
  columns := [("stock_symbol", "STRING"); ("price", "DECIMAL(10,2)")];
  partitioned_by := [("trade_date", "STRING")];
  fields_terminated_by := None;
  stored_as := "ORC";
  tblproperties := [("orc.compress", "SNAPPY")]
|}.

Definition load_steps (hive_data execution_date : string) : list (string * stmt) := [
  ("Create staging table (TEXT format for CSV)",
   CreateTableIfNotExists egx30_staging);
  ("Create final ORC table (partitioned)",
   CreateTableIfNotExists egx30_stocks);
  ("Clear staging",
   TruncateTable "egx30_staging");
  ("Load CSV into staging",
   LoadDataLocalInpath hive_data "egx30_staging");
  ("Drop old partition",
   AlterTableDropIfExistsPartition "egx30_stocks" "trade_date" execution_date);
  ("Insert from staging to final table",
   InsertIntoPartitionSelect "egx30_stocks" "trade_date" execution_date
     ["stock_symbol"; "price"] "egx30_staging");
  ("Verify",
   SelectCountOfPartition "egx30_stocks" "trade_date" execution_date)
].

Definition load_script (hive_data execution_date : string) : list stmt :=
  snd <$> load_steps hive_data execution_date.

(** *** Execution *)

(** A stored row: its fields, [None] for NULL. *)
Abbreviation hrow := (list (option string)).

(** A table: its definition, its rows when it is not partitioned, its
    partitions by partition value when it is. *)
Record table := {
  def : table_def;
  rows : list hrow;
  parts : gmap string (list hrow)
}.

Abbreviation warehouse := (gmap string table).

Definition chomp (line : string) : string :=
  match String.rev line with
  | String c r => if decide (c = LF) then String.rev r else line
  | EmptyString => line
  end.

(** The rows of a delimited text file: one per line, fields cut at the
    comma. *)
Definition text_rows (contents : string) : list hrow :=
  (λ line, Some <$> str_split ","%char (chomp line)) <$> file_lines contents.

Fixpoint index_of (c : string) (cols : list string) : option nat :=
  match cols with
  | [] => None
  | c' :: rest => if decide (c = c') then Some 0%nat else S <$> index_of c rest
  end.

(** [SELECT cols FROM source]: a column the source lacks fails the
    statement, a field the row lacks is NULL. *)
Definition project (source_cols cols : list string) (r : hrow) : option hrow :=
  mapM (λ c, i ← index_of c source_cols; Some (mjoin (r !! i))) cols.

Definition is_partition_column (d : table_def) (pcol : string) : bool :=
  bool_decide (fst <$> partitioned_by d = [pcol]).

Definition is_flat (d : table_def) : bool :=
  bool_decide (partitioned_by d = []).

(** Modelled from the spec: the warehouse engine that runs the script is
    outside the repository.  Each statement has the meaning the spec
    gives its step: ensure the table exists, clear the staging table,
    bulk-load the file into staging, drop the partition if present,
    insert the staging contents under the partition, count the rows of
    the partition.  [None] is a failed statement; the second component
    is the result set printed. *)
Definition exec (local : files) (w : warehouse) (s : stmt)
    : option (warehouse * list (list string)) :=
  match s with
  | CreateTableIfNotExists d =>
      match w !! name d with
      | Some _ => Some (w, [])
      | None => Some (<[name d := {| def := d; rows := []; parts := ∅ |}]> w, [])
      end
  | TruncateTable t =>
      tb ← w !! t;
      Some (<[t := {| def := def tb; rows := []; parts := (λ _, []) <$> parts tb |}]> w, [])
  | LoadDataLocalInpath path t =>
      contents ← local !! path;
      tb ← w !! t;
      if is_flat (def tb) then
        Some (<[t := {| def := def tb; rows := rows tb ++ text_rows contents;
                        parts := parts tb |}]> w, [])
      else None
  | AlterTableDropIfExistsPartition t pcol pval =>
      tb ← w !! t;
      if is_partition_column (def tb) pcol then
        Some (<[t := {| def := def tb; rows := rows tb;
                        parts := delete pval (parts tb) |}]> w, [])
      else None
  | InsertIntoPartitionSelect t pcol pval cols source =>
      tb ← w !! t;
      src ← w !! source;
      if is_partition_column (def tb) pcol && is_flat (def src) then
        selected ← mapM (project (fst <$> columns (def src)) cols) (rows src);
        Some (<[t := {| def := def tb; rows := rows tb;
                        parts := <[pval := default [] (parts tb !! pval) ++ selected]>
                                   (parts tb) |}]> w, [])
      else None
  | SelectCountOfPartition t pcol pval =>
      tb ← w !! t;
      if is_partition_column (def tb) pcol then
        match default [] (parts tb !! pval) with
        | [] => Some (w, [])
        | rs => Some (w, [[pval; pretty (length rs)]])
        end
      else None
  end.

(** [hive -f script]: the statements in order, stopping at the first
    that fails. *)
Fixpoint run (local : files) (w : warehouse) (script : list stmt)
    : option (warehouse * list (list string)) :=
  match script with
  | [] => Some (w, [])
  | s :: rest =>
      '(w', out) ← exec local w s;
      '(w'', out') ← run local w' rest;
      Some (w'', out ++ out')
  end.

(** The rows of a partition of a table; none when either is absent. *)
Definition partition_rows (w : warehouse) (t pval : string) : list hrow :=
  default [] (tb ← w !! t; parts tb !! pval).

(** What the count of step 7 prints. *)
Definition count_output (pval : string) (rs : list hrow) : list (list string) :=
  match rs with
  | [] => []
  | _ => [[pval; pretty (length rs)]]
  end.

(** The state in which a run of the load script leaves the warehouse:
    staging holds the rows of the file, and the partition of the run
    date holds [selected], the staging rows cut to the two columns. *)
Definition loaded (local : files) (hive_data execution_date : string)
    (w : warehouse) (selected : list hrow) : Prop :=
  ∃ st tg contents,
    w !! "egx30_staging" = Some st
    ∧ w !! "egx30_stocks" = Some tg
    ∧ local !! hive_data = Some contents
    ∧ is_flat (def st) = true
    ∧ is_partition_column (def tg) "trade_date" = true
    ∧ rows st = text_rows contents
    ∧ parts st = (λ _, []) <$> parts st
    ∧ mapM (project (fst <$> columns (def st)) ["stock_symbol"; "price"]) (rows st)
      = Some selected
    ∧ parts tg !! execution_date = Some selected.

End Hive.

(** ** A decimal implementation of the float interface *)

(** Floats that are exact decimals, [± unscaled / 10 ^ scale], kept with
    no trailing zero in the fraction.  On plain decimal literals of
    moderate size (no exponent, up to 15 significant digits) the
    constructor and the printed text agree with CPython's; [round2]
    rounds the decimal value half to even.  It serves to run the
    pipeline on concrete inputs. *)
Module DecimalFloat.

Record dec := {
  negative : bool;
  unscaled : N;
  scale : nat
}.

Fixpoint normalize_go (fuel : nat) (u : N) (sc : nat) : N * nat :=
  match fuel, sc with
  | S fuel', S sc' =>
      if (u `mod` 10 =? 0)%N then normalize_go fuel' (u `div` 10)%N sc' else (u, sc)
  | _, _ => (u, sc)
  end.

Definition normalize (neg : bool) (u : N) (sc : nat) : dec :=
  let '(u', sc') := normalize_go sc u sc in
  {| negative := neg; unscaled := u'; scale := sc' |}.

Definition digit_value (c : ascii) : option N :=
  N.of_nat <$> Ascii.is_nat c.

Fixpoint digits_value (acc : N) (s : string) : option N :=
  match s with
  | EmptyString => Some acc
  | String c r => d ← digit_value c; digits_value (10 * acc + d)%N r
  end.

Definition unsigned_of_str (neg : bool) (s : string) : option dec :=
  match str_split "."%char s with
  | [i] =>
      if decide (i = "") then None
      else u ← digits_value 0 i; Some (normalize neg u 0)
  | [i; f] =>
      if decide (i +:+ f = "") then None
      else u ← digits_value 0 (i +:+ f); Some (normalize neg u (String.length f))
  | _ => None
  end.

Definition of_str (s : string) : option dec :=
  match str_strip s with
  | String "-" r => unsigned_of_str true r
  | String "+" r => unsigned_of_str false r
  | r => unsigned_of_str false r
  end.

Fixpoint pad_zeros (width : nat) (s : string) : string :=
  match width with
  | O => s
  | S w => if decide (String.length s ≤ w)%nat then String "0" (pad_zeros w s)
           else s
  end.

Definition repr (x : dec) : string :=
  let p := (10 ^ N.of_nat (scale x))%N in
  (if negative x then "-" else "")
  +:+ pretty (unscaled x `div` p)%N +:+ "."
  +:+ match scale x with
      | O => "0"
      | sc => pad_zeros sc (pretty (unscaled x `mod` p)%N)
      end.

Definition round2 (x : dec) : dec :=
  if decide (scale x ≤ 2)%nat then x
  else
    let p := (10 ^ N.of_nat (scale x - 2))%N in
    let q := (unscaled x `div` p)%N in
    let r := (unscaled x `mod` p)%N in
    let up := (p <? 2 * r)%N || ((2 * r =? p)%N && N.odd q) in
    normalize (negative x) (if up then q + 1 else q)%N 2.

Definition floats : FloatOps := {|
  float := dec;
  float_of_str := of_str;
  float_repr := repr;
  float_round2 := round2;
  float_bool x := negb (unscaled x =? 0)%N
|}.

(** The literal [s] as a float. *)
Definition lit (s : string) : dec :=
  default {| negative := false; unscaled := 0; scale := 0 |} (of_str s).

End DecimalFloat.

(** ** Concrete runs *)

(** Inputs on which the stages are run below, over the decimal floats. *)
Module Demo.
Section Defs.
Local Existing Instance DecimalFloat.floats.

Definition ds : string := "2024-01-02".

(** The source answers the first request with [closes] and times out
    on every other. *)
Definition first_only (closes : list json) : network := λ i _,
  match i with
  | O => Ok (Extract.chart_document closes)
  | S _ => Raise (OSError "timed out")
  end.


(** The source reports the close 123.456. *)
Definition net_float : network := first_only [JFloat (DecimalFloat.lit "123.456")].

(** The source fails on every request. *)
Definition net_down : network := λ _ _, Raise (OSError "timed out").

Definition csv_of (rows : list string) : string :=
  str_concat ((λ l, l +:+ nl) <$> ("date,stock_symbol,price" :: rows)).

(** A raw file with the same symbol twice. *)
Definition raw_duplicate : string :=
  csv_of ["2024-01-02,X,10.00"; "2024-01-02,X,20.00"].

(** A raw file with a two-field row between two good rows. *)
Definition raw_with_short_row : string :=
  csv_of ["2024-01-02,A,1.50"; "2024-01-02,B"; "2024-01-02,C,2.25"].

Definition raw_without_short_row : string :=
  csv_of ["2024-01-02,A,1.50"; "2024-01-02,C,2.25"].

(** A raw file whose data rows are all malformed. *)
Definition raw_all_malformed : string :=
  csv_of ["2024-01-02,B"; "2024-01-02,C,n/a"; ""].

Definition ctx : Validate.context :=
  {| Validate.ds := ds;
     Validate.xcom_extract_data := Some (Extract.csv_path ds) |}.

Definition ctx_at (path : string) : Validate.context :=
  {| Validate.ds := ds; Validate.xcom_extract_data := Some path |}.

Definition raw_at (path contents : string) : files := {[ path := contents ]}.

(** The clean dataset on the local disk of the warehouse client. *)
Definition clean_file : files :=
  {[ Validate.hive_data ds := "A,10.0" +:+ nl +:+ "B,20.5" +:+ nl ]}.

Definition clean_rows : list Hive.hrow :=
  [[Some "A"; Some "10.0"]; [Some "B"; Some "20.5"]].

(** The warehouse after the load script ran on an empty warehouse. *)
Definition loaded_warehouse : Hive.warehouse :=
  <["egx30_stocks" := {| Hive.def := Hive.egx30_stocks; Hive.rows := [];
                         Hive.parts := {[ ds := clean_rows ]} |}]>
    (<["egx30_staging" := {| Hive.def := Hive.egx30_staging;
                             Hive.rows := clean_rows;
                             Hive.parts := ∅ |}]> ∅).

End Defs.
End Demo.

(** ** The two stages in sequence *)

Module Pipeline.
Section Defs.
Context `{FloatOps}.

(** What [validate_and_prepare] finds in its context when it runs after
    [extract_data] in the same DAG run: the run date, and under the task
    id [extract_data] the value that task returned. *)
Definition handoff (ds csv_path : string) : Validate.context :=
  {| Validate.ds := ds; Validate.xcom_extract_data := Some csv_path |}.

(** [extract >> validate]: the second task runs once the first has
    returned. *)
Definition extract_then_validate (net : network) (ds : string) (fs : files)
    : result (files * string) :=
  '(fs1, csv_path) ← Extract.extract_stock_data net ds fs;
  Validate.validate_and_prepare (handoff ds csv_path) fs1.

(** A row of the raw artifact without its line feed. *)
Definition csv_line (rec : Extract.price_record) : string :=
  Extract.date rec +:+ String ","%char (Extract.symbol rec
    +:+ String ","%char (str_of_number (Extract.price rec))).

(** A text with every line feed turned into carriage return and line
    feed, as a file saved with Windows line ends. *)
Fixpoint with_crlf (s : string) : string :=
  match s with
  | EmptyString => EmptyString
  | String c r =>
      if decide (c = LF) then String CR (String LF (with_crlf r))
      else String c (with_crlf r)
  end.

(** The float the validation stage reads back from the printed text of
    a price: the text up to the end of its line, stripped, unless that
    holds a comma. *)
Definition read_back (text : string) : option float :=
  let field := str_rstrip (text +:+ nl) in
  if str_contains ","%char field then None else float_of_str field.

(** The row of the clean dataset that a record of the batch becomes. *)
Definition clean_row_of (rec : Extract.price_record) : option Validate.row :=
  x ← read_back (str_of_number (Extract.price rec));
  Some {| Validate.symbol := Extract.symbol rec; Validate.price := x |}.

End Defs.
End Pipeline.
(** * Properties *)

(** ** Python strings *)

Example str_strip_line : str_strip ("  a,b,1.5 " +:+ nl) = "a,b,1.5".
Proof. reflexivity. Qed.

Example str_split_3 : str_split ","%char "d,A,1.5" = ["d"; "A"; "1.5"].
Proof. reflexivity. Qed.

Example str_split_blank : str_split ","%char "" = [""].
Proof. reflexivity. Qed.

Example str_split_keeps_empty : str_split ","%char ",a," = [""; "a"; ""].
Proof. reflexivity. Qed.

Example str_replace_suffix : str_replace ".CA" "" "EGS01041C010.CA" = "EGS01041C010".
Proof. reflexivity. Qed.

Example str_replace_all : str_replace ".CA" "" "A.CAB.CA" = "AB".
Proof. reflexivity. Qed.

Example str_replace_one_pass : str_replace ".CA" "" "..CACA" = ".CA".
Proof. reflexivity. Qed.

Example file_lines_ex :
  file_lines ("h" +:+ nl +:+ "a" +:+ nl +:+ "b") = ["h" +:+ nl; "a" +:+ nl; "b"].
Proof. reflexivity. Qed.

Example universal_newlines_ex :
  universal_newlines (String "a" (String CR (String LF (String "b" (String CR "")))))
  = String "a" (String LF (String "b" (String LF ""))).
Proof. reflexivity. Qed.

(** *** Facts about [str_replace] with the pattern [".CA"] *)

Section ReplaceCA.

Local Abbreviation rep := (replace_from ".CA" "" 0).

Lemma string_app_nil_l (s : string) : "" +:+ s = s.
Proof. reflexivity. Qed.

Lemma string_app_cons (c : ascii) (s t : string) :
  String c s +:+ t = String c (s +:+ t).
Proof. reflexivity. Qed.

Lemma string_app_assoc (s t u : string) : (s +:+ t) +:+ u = s +:+ t +:+ u.
Proof.
  induction s as [|c s IH]; [reflexivity|].
  rewrite !string_app_cons. by rewrite IH.
Qed.

Lemma string_app_nil_r (s : string) : s +:+ "" = s.
Proof.
  induction s as [|c s IH]; [reflexivity|].
  rewrite string_app_cons. by rewrite IH.
Qed.

Lemma string_app_length (s t : string) :
  String.length (s +:+ t) = (String.length s + String.length t)%nat.
Proof.
  induction s as [|c s IH]; [reflexivity|].
  rewrite string_app_cons. simpl. by rewrite IH.
Qed.

Lemma rep_match (r : string) : rep (".CA" +:+ r) = rep r.
Proof. reflexivity. Qed.

Lemma rep_no_match (c : ascii) (r : string) :
  str_startswith (String c r) ".CA" = false →
  rep (String c r) = String c (rep r).
Proof.
  intros Hp. change (rep (String c r)) with
    (if str_startswith (String c r) ".CA"
     then "" +:+ replace_from ".CA" "" 2 r else String c (rep r)).
  by rewrite Hp.
Qed.

Lemma prefix_CA_inv (s : string) :
  str_startswith s ".CA" = true → ∃ r, s = ".CA" +:+ r.
Proof.
  destruct s as [|c1 [|c2 [|c3 r]]]; simpl; try done;
    repeat (case_decide; try done); subst.
  intros _. by exists r.
Qed.

(** An occurrence of [".CA"] cannot begin inside [a] and end inside the
    occurrence that follows [a]: the pattern has no border. *)
Lemma prefix_CA_no_straddle (c : ascii) (a b : string) :
  str_startswith (String c a) ".CA" = false →
  str_startswith (String c a +:+ ".CA" +:+ b) ".CA" = false.
Proof.
  destruct a as [|c2 [|c3 a]]; rewrite ?string_app_cons, ?string_app_nil_l;
    simpl; repeat (case_decide; try done); subst; done.
Qed.

Lemma rep_app_CA_bounded (n : nat) (a b : string) :
  (String.length a ≤ n)%nat →
  rep (a +:+ ".CA" +:+ b) = rep a +:+ rep b.
Proof.
  revert a. induction n as [|n IH]; intros a Hn.
  - destruct a; [|simpl in Hn; lia]. apply rep_match.
  - destruct a as [|c a]; [apply rep_match|].
    destruct (str_startswith (String c a) ".CA") eqn:Hp.
    + apply prefix_CA_inv in Hp as [r Hr]. rewrite Hr.
      rewrite string_app_assoc, !rep_match. apply IH.
      rewrite Hr, string_app_length in Hn. simpl in Hn. lia.
    + pose proof (prefix_CA_no_straddle c a b Hp) as Hq.
      rewrite (string_app_cons c a) in Hq |- *.
      rewrite (rep_no_match c (a +:+ ".CA" +:+ b) Hq), (rep_no_match c a Hp).
      rewrite (string_app_cons c (rep a)). f_equal. apply IH. simpl in Hn. lia.
Qed.

End ReplaceCA.

(** *** Lines and fields of a delimited text *)

Section Delimited.

Implicit Types (s t : string) (c : ascii).

Lemma str_contains_app c s t :
  str_contains c (s +:+ t) = str_contains c s || str_contains c t.
Proof.
  induction s as [|c' s IH]; [done|].
  rewrite string_app_cons. simpl. by rewrite IH, orb_assoc.
Qed.

Lemma str_contains_lstrip c s :
  str_contains c s = false → str_contains c (str_lstrip s) = false.
Proof.
  induction s as [|c' s IH]; [done|]. simpl.
  intros [? ?]%orb_false_iff. destruct (py_isspace c'); [by apply IH|].
  simpl. by apply orb_false_iff.
Qed.

(** Leading whitespace ends at a comma at the latest. *)
Lemma str_lstrip_comma s t :
  str_lstrip (s +:+ String "," t) = str_lstrip s +:+ String "," t.
Proof.
  induction s as [|c s IH]; [done|].
  rewrite string_app_cons. simpl. by destruct (py_isspace c).
Qed.

Lemma str_rstrip_comma_ne t : str_rstrip (String "," t) ≠ "".
Proof. simpl. by destruct (str_rstrip t). Qed.

(** Trailing whitespace begins after the last comma at the earliest. *)
Lemma str_rstrip_comma s t :
  str_rstrip (s +:+ String "," t) = s +:+ str_rstrip (String "," t).
Proof.
  induction s as [|c s IH]; [done|].
  rewrite !string_app_cons. simpl str_rstrip at 1. rewrite IH.
  pose proof (str_rstrip_comma_ne t) as Hne.
  destruct (str_rstrip (String "," t)) as [|c' r]; [done|].
  by destruct s.
Qed.

Lemma str_rstrip_comma_cons t :
  str_rstrip (String "," t) = String "," (str_rstrip t).
Proof. simpl. by destruct (str_rstrip t). Qed.

(** The first field is the text before the first comma. *)
Lemma str_split_comma s t :
  str_contains "," s = false →
  str_split "," (s +:+ String "," t) = s :: str_split "," t.
Proof.
  induction s as [|c s IH]; [done|].
  simpl. intros [Hc Hs]%orb_false_iff. apply bool_decide_eq_false in Hc.
  rewrite decide_False by done. by rewrite IH.
Qed.

(** Text without a carriage return is read as it is. *)
Lemma universal_newlines_id s :
  str_contains CR s = false → universal_newlines s = s.
Proof.
  induction s as [|c s IH]; [done|]. simpl.
  intros [Hc Hs]%orb_false_iff. apply bool_decide_eq_false in Hc.
  rewrite decide_False by done. by rewrite IH.
Qed.

(** A text without a line feed, followed by one, is the first line. *)
Lemma file_lines_line s t :
  str_contains LF s = false →
  file_lines (s +:+ nl +:+ t) = (s +:+ nl) :: file_lines t.
Proof.
  induction s as [|c s IH]; [done|]. simpl.
  intros [Hc Hs]%orb_false_iff. apply bool_decide_eq_false in Hc.
  rewrite decide_False by done. by rewrite IH.
Qed.

Lemma file_lines_concat (ls : list string) :
  Forall (λ l, str_contains LF l = false) ls →
  file_lines (str_concat ((λ l, l +:+ nl) <$> ls)) = (λ l, l +:+ nl) <$> ls.
Proof.
  induction 1 as [|l ls Hl _ IH]; [done|].
  rewrite !fmap_cons. unfold str_concat in *. simpl foldr.
  by rewrite string_app_assoc, file_lines_line, IH.
Qed.

Lemma str_contains_concat c (ls : list string) :
  Forall (λ l, str_contains c l = false) ls →
  str_contains c (str_concat ls) = false.
Proof.
  induction 1 as [|l ls Hl _ IH]; [done|].
  unfold str_concat in *. simpl. by rewrite str_contains_app, Hl, IH.
Qed.

End Delimited.

(** ** Stage 1: extraction *)

Section ExtractProps.
Context `{FloatOps}.
Import Extract.

Implicit Types (net : network) (ds symbol : string) (i : nat).
Implicit Types (all_data : list price_record) (symbols : list string).

Lemma bind_Ok {A B} (a : A) (f : A → result B) : Ok a ≫= f = f a.
Proof. reflexivity. Qed.

Lemma bind_Raise {A B} (e : exn) (f : A → result B) : Raise e ≫= f = Raise e.
Proof. reflexivity. Qed.

(** What a symbol contributes, by the outcome of its request. *)
Lemma yields_request_fails net ds i symbol e :
  net i (url symbol) = Raise e → yields net ds i symbol = [].
Proof. intros Hn. unfold yields, loop_body, try_body. by rewrite Hn. Qed.

Lemma yields_walk_fails net ds i symbol data e :
  net i (url symbol) = Ok data → first_close data = Raise e →
  yields net ds i symbol = [].
Proof.
  intros Hn Hc. unfold yields, loop_body, try_body.
  by rewrite Hn, bind_Ok, Hc.
Qed.

Lemma yields_no_close net ds i symbol data :
  net i (url symbol) = Ok data → first_close data = Ok None →
  yields net ds i symbol = [].
Proof.
  intros Hn Hc. unfold yields, loop_body, try_body.
  by rewrite Hn, bind_Ok, Hc.
Qed.

Lemma yields_round_fails net ds i symbol data close0 e :
  net i (url symbol) = Ok data → first_close data = Ok (Some close0) →
  py_round2 close0 = Raise e →
  yields net ds i symbol = [].
Proof.
  intros Hn Hc Hr. unfold yields, loop_body, try_body.
  by rewrite Hn, bind_Ok, Hc, bind_Ok, Hr.
Qed.

Lemma yields_price net ds i symbol data close0 price :
  net i (url symbol) = Ok data → first_close data = Ok (Some close0) →
  py_round2 close0 = Ok price →
  yields net ds i symbol =
    [{| date := ds; symbol := clean_symbol symbol; price := price |}].
Proof.
  intros Hn Hc Hr. unfold yields, loop_body, try_body.
  by rewrite Hn, bind_Ok, Hc, bind_Ok, Hr.
Qed.

(** A turn of the loop leaves the batch as it was and adds what the
    symbol yields. *)
Lemma loop_body_yields net ds i symbol all_data :
  loop_body net ds i symbol all_data = all_data ++ yields net ds i symbol.
Proof.
  unfold yields, loop_body, try_body.
  destruct (net i (url symbol)) as [data|e]; simpl; [|by rewrite app_nil_r].
  destruct (first_close data) as [[close0|]|e]; simpl;
    [|by rewrite app_nil_r..].
  destruct (py_round2 close0) as [price|e]; simpl; [done|by rewrite app_nil_r].
Qed.

Lemma yields_inv net ds i symbol r :
  r ∈ yields net ds i symbol →
  ∃ data close0 price,
    net i (url symbol) = Ok data ∧ first_close data = Ok (Some close0) ∧
    py_round2 close0 = Ok price ∧
    r = {| date := ds; symbol := clean_symbol symbol; price := price |}.
Proof.
  unfold yields, loop_body, try_body.
  destruct (net i (url symbol)) as [data|e] eqn:Hn; simpl;
    [|by intros ?%elem_of_nil].
  destruct (first_close data) as [[close0|]|e] eqn:Hc; simpl;
    [|(by intros ?%elem_of_nil)..].
  destruct (py_round2 close0) as [price|e] eqn:Hr; simpl;
    [|by intros ?%elem_of_nil].
  intros ->%list_elem_of_singleton. by exists data, close0, price.
Qed.

Lemma yields_nil_iff net ds i symbol :
  yields net ds i symbol = [] ↔
  ¬ ∃ data close0 price,
      net i (url symbol) = Ok data ∧ first_close data = Ok (Some close0) ∧
      py_round2 close0 = Ok price.
Proof.
  split.
  - intros Hnil (data & close0 & price & Hn & Hc & Hr).
    by rewrite (yields_price _ ds _ _ _ _ _ Hn Hc Hr) in Hnil.
  - intros Hno. destruct (yields net ds i symbol) as [|r l] eqn:Hy; [done|].
    destruct Hno. assert (Hr : r ∈ yields net ds i symbol).
    { rewrite Hy. apply elem_of_cons. by left. }
    apply yields_inv in Hr as (data & close0 & price & ? & ? & ? & _).
    by exists data, close0, price.
Qed.

Lemma for_symbols_yields net ds symbols i all_data :
  for_symbols net ds i symbols all_data =
    all_data ++ mjoin (imap (λ j, yields net ds (i + j)) symbols).
Proof.
  revert i all_data.
  induction symbols as [|symbol rest IH]; intros i all_data; simpl.
  - by rewrite app_nil_r.
  - rewrite IH, loop_body_yields, <-app_assoc, Nat.add_0_r.
    do 3 f_equal. apply imap_ext. intros j s _. simpl. f_equal. lia.
Qed.

Lemma mjoin_nil_iff {A} (ls : list (list A)) :
  mjoin ls = [] ↔ ∀ l, l ∈ ls → l = [].
Proof.
  induction ls as [|l ls IH]; simpl.
  - split; [by intros _ ? ?%elem_of_nil|done].
  - split.
    + intros [-> ?]%app_eq_nil l' [->|?]%elem_of_cons; [done|]. by apply IH.
    + intros Hall. rewrite (Hall l) by (apply elem_of_cons; by left). simpl.
      apply IH. intros ??. apply Hall. apply elem_of_cons. by right.
Qed.

Lemma batch_nil_iff net ds symbols :
  for_symbols net ds 0 symbols [] = [] ↔
  ∀ i symbol, symbols !! i = Some symbol → yields net ds i symbol = [].
Proof.
  rewrite for_symbols_yields. simpl. rewrite mjoin_nil_iff. split.
  - intros Hall i symbol Hi. apply Hall.
    apply elem_of_lookup_imap. by exists i, symbol.
  - intros Hall l (i & symbol & -> & Hi)%elem_of_lookup_imap. by apply Hall.
Qed.

(** C1. The extraction stage raises its run-level error if and only if
    no symbol yields a price record.  Every turn of the loop, whatever
    the outcome of its request, keeps the batch and passes on to the
    next symbol; a symbol yields nothing exactly when its request
    raises, the walk through the document raises or finds no close, or
    the close cannot be rounded.  So the batch is the concatenation of
    what each symbol yields; after the loop the stage raises exactly
    when the batch is empty, and otherwise writes the batch and
    returns. *)
Theorem extract_raises_iff_no_symbol_yields symbols net ds (fs : files) :
  let all_data := for_symbols net ds 0 symbols [] in
  (∀ i symbol batch,
      loop_body net ds i symbol batch = batch ++ yields net ds i symbol)
  ∧ (∀ i symbol,
      yields net ds i symbol = [] ↔
      ¬ ∃ data close0 price,
          net i (url symbol) = Ok data ∧ first_close data = Ok (Some close0) ∧
          py_round2 close0 = Ok price)
  ∧ all_data = mjoin (imap (yields net ds) symbols)
  ∧ (extract_from symbols net ds fs = Raise (ValueError "No data extracted")
     ↔ ∀ i symbol, symbols !! i = Some symbol → yields net ds i symbol = [])
  ∧ (extract_from symbols net ds fs = Raise (ValueError "No data extracted")
     ↔ all_data = [])
  ∧ (extract_from symbols net ds fs
       = Ok (<[csv_path ds := csv_text all_data]> fs, csv_path ds)
     ↔ all_data ≠ []).
Proof.
  intros all_data.
  assert (Hraise : extract_from symbols net ds fs
                     = Raise (ValueError "No data extracted") ↔ all_data = []).
  { unfold extract_from. fold all_data. by destruct all_data. }
  split_and!.
  - apply loop_body_yields.
  - apply yields_nil_iff.
  - unfold all_data. by rewrite for_symbols_yields.
  - rewrite Hraise. apply batch_nil_iff.
  - done.
  - unfold extract_from. fold all_data. by destruct all_data.
Qed.




Lemma clean_symbol_app_CA (a b : string) :
  clean_symbol (a +:+ ".CA" +:+ b) = clean_symbol a +:+ clean_symbol b.
Proof. by apply (rep_app_CA_bounded (String.length a)). Qed.

Lemma egx_symbols_suffix (s : string) :
  s ∈ egx_symbols → s = clean_symbol s +:+ ".CA".
Proof.
  unfold egx_symbols. intros Hs.
  repeat (apply elem_of_cons in Hs as [->|Hs]; [reflexivity|]).
  by apply elem_of_nil in Hs.
Qed.


(** C9. Normalization deletes [.CA] wherever it stands: a symbol that
    holds the three characters at any place, with any text before and
    after them, loses them, and the text before and the text after are
    normalized in turn.  So it is not the removal of a trailing suffix:
    on a symbol with an interior [.CA] the two differ. *)
Theorem clean_symbol_removes_every_occurrence :
  (∀ a b, clean_symbol (a +:+ ".CA" +:+ b) = clean_symbol a +:+ clean_symbol b)
  ∧ (∀ a b, clean_symbol a = a → clean_symbol b = b →
            clean_symbol (a +:+ ".CA" +:+ b) = a +:+ b)
  ∧ clean_symbol "EGS.CA01041C010.CA" = "EGS01041C010"
  ∧ str_removesuffix "EGS.CA01041C010.CA" ".CA" = "EGS.CA01041C010".
Proof.
  split_and!; [apply clean_symbol_app_CA| |reflexivity..].
  intros a b Ha Hb. by rewrite clean_symbol_app_CA, Ha, Hb.
Qed.

End ExtractProps.

(** ** Stage 1: the shape of the batch and what the stage reads *)

Section ExtractMore.
Context `{FloatOps}.
Import Extract.

Implicit Types (net : network) (ds symbol : string) (i : nat).
Implicit Types (symbols : list string).

Lemma yields_cases net ds i symbol :
  yields net ds i symbol = []
  ∨ ∃ price, yields net ds i symbol =
               [{| date := ds; symbol := clean_symbol symbol; price := price |}].
Proof.
  destruct (yields net ds i symbol) as [|r l] eqn:Hy; [by left|right].
  assert (Hr : r ∈ yields net ds i symbol).
  { rewrite Hy. apply elem_of_cons. by left. }
  apply yields_inv in Hr as (data & close0 & price & Hn & Hc & Hp & _).
  exists price. rewrite <-Hy. by eapply yields_price.
Qed.

Lemma batch_symbols_sublist net ds symbols i :
  symbol <$> mjoin (imap (λ j, yields net ds (i + j)) symbols)
  `sublist_of` clean_symbol <$> symbols.
Proof.
  revert i. induction symbols as [|s rest IH]; intros i; [done|].
  rewrite imap_cons, fmap_cons. simpl mjoin. rewrite fmap_app.
  assert (Hrest : symbol <$> mjoin (imap ((λ j, yields net ds (i + j)) ∘ S) rest)
                  `sublist_of` clean_symbol <$> rest).
  { erewrite imap_ext; [apply (IH (S i))|].
    intros j x _. simpl. f_equal. lia. }
  destruct (yields_cases net ds (i + 0) s) as [->|[price ->]]; simpl.
  - by apply sublist_cons.
  - by apply sublist_skip.
Qed.

Lemma batch_dates net ds symbols r :
  r ∈ for_symbols net ds 0 symbols [] → date r = ds.
Proof.
  rewrite for_symbols_yields, app_nil_l.
  intros (l & Hr & Hl)%list_elem_of_join.
  apply elem_of_lookup_imap in Hl as (i & s & -> & Hi).
  by apply yields_inv in Hr as (data & close0 & price & _ & _ & _ & ->).
Qed.

(** X1. The batch follows the configured order and holds at most one
    record per configured symbol: its symbols are the normalized symbols
    of the list with some left out, so it is never longer than the list,
    and every record carries the run date. *)
Theorem batch_follows_configured_order net ds symbols :
  let all_data := for_symbols net ds 0 symbols [] in
  symbol <$> all_data `sublist_of` clean_symbol <$> symbols
  ∧ (length all_data ≤ length symbols)%nat
  ∧ (∀ r, r ∈ all_data → date r = ds)
  ∧ (NoDup (clean_symbol <$> symbols) → NoDup (symbol <$> all_data)).
Proof.
  intros all_data.
  assert (Hsub : symbol <$> all_data `sublist_of` clean_symbol <$> symbols).
  { unfold all_data. rewrite for_symbols_yields, app_nil_l.
    apply (batch_symbols_sublist net ds symbols 0). }
  split_and!; [done| |apply batch_dates|].
  - apply sublist_length in Hsub. by rewrite !length_fmap in Hsub.
  - intros Hnd. by eapply sublist_NoDup.
Qed.

(** X2. The stage reads the network only through the one request it makes
    for each symbol of the list, the [i]-th request being for the [i]-th
    symbol's URL: two sources that answer these requests alike give the
    same outcome, whatever they answer elsewhere. *)
Theorem extract_reads_one_reply_per_symbol symbols net1 net2 ds (fs : files) :
  (∀ i symbol, symbols !! i = Some symbol →
               net1 i (url symbol) = net2 i (url symbol)) →
  for_symbols net1 ds 0 symbols [] = for_symbols net2 ds 0 symbols []
  ∧ extract_from symbols net1 ds fs = extract_from symbols net2 ds fs.
Proof.
  intros Hagree.
  assert (Hbatch : for_symbols net1 ds 0 symbols []
                   = for_symbols net2 ds 0 symbols []).
  { rewrite !for_symbols_yields. do 2 f_equal. apply imap_ext.
    intros i s Hi. simpl. unfold yields, loop_body, try_body.
    by rewrite (Hagree i s Hi). }
  split; [done|]. unfold extract_from. by rewrite Hbatch.
Qed.

(** X3. Of the result list and of the close list only the first element
    is read: a document whose [chart.result] is a non-empty list gives
    what the document with that first element alone gives, and a chart
    document gives its first close when that is not null and nothing
    when it is null, whatever closes follow. *)
Theorem only_first_result_and_close_are_read :
  (∀ members chart result0 rest,
      dict_lookup "chart" members = Some (JObj chart) →
      dict_lookup "result" chart = Some (JArr (result0 :: rest)) →
      first_close (JObj members)
      = first_close (JObj [("chart", JObj [("result", JArr [result0])])]))
  ∧ (∀ close0 rest,
      first_close (chart_document (close0 :: rest))
      = if py_is_None close0 then Ok None else Ok (Some close0))
  ∧ (∀ net ds i symbol close0 rest rest',
      net i (url symbol) = Ok (chart_document (close0 :: rest)) →
      yields net ds i symbol
      = yields (λ _ _, Ok (chart_document (close0 :: rest'))) ds i symbol).
Proof.
  split_and!.
  - intros members chart result0 rest Hchart Hresult.
    unfold first_close, py_get. rewrite Hchart. simpl. by rewrite Hresult.
  - done.
  - intros net ds i symbol close0 rest rest' Hn.
    unfold yields, loop_body, try_body. by rewrite Hn.
Qed.

(** X4. A key that is absent is not an error: a document that is an
    object but lacks [chart], or whose chart lacks [result], or whose
    first result lacks [indicators], [quote] or [close], gives no close
    and raises nothing.  A document that is not an object raises inside
    the [try]; either way the symbol yields no record. *)
Theorem missing_keys_give_no_record :
  (∀ members, dict_lookup "chart" members = None →
      first_close (JObj members) = Ok None)
  ∧ (∀ chart, dict_lookup "result" chart = None →
      first_close (JObj [("chart", JObj chart)]) = Ok None)
  ∧ (∀ result0 rest, dict_lookup "indicators" result0 = None →
      first_close (JObj [("chart", JObj [("result", JArr (JObj result0 :: rest))])])
      = Ok None)
  ∧ (∀ indicators rest, dict_lookup "quote" indicators = None →
      first_close
        (JObj [("chart",
                JObj [("result",
                       JArr (JObj [("indicators", JObj indicators)] :: rest))])])
      = Ok None)
  ∧ (∀ quote quotes rest, dict_lookup "close" quote = None →
      first_close
        (JObj [("chart",
                JObj [("result",
                       JArr (JObj [("indicators",
                                    JObj [("quote", JArr (JObj quote :: quotes))])]
                             :: rest))])])
      = Ok None)
  ∧ (∀ data, (∀ members, data ≠ JObj members) →
      first_close data = Raise AttributeError)
  ∧ (∀ net ds i symbol data,
      net i (url symbol) = Ok data →
      first_close data = Ok None ∨ (∃ e, first_close data = Raise e) →
      yields net ds i symbol = []).
Proof.
  split_and!.
  - intros members Hm. unfold first_close, py_get. by rewrite Hm.
  - intros chart Hr. unfold first_close, py_get. simpl. by rewrite Hr.
  - intros result0 rest Hi. unfold first_close, py_get. simpl. by rewrite Hi.
  - intros indicators rest Hq. unfold first_close, py_get. simpl. by rewrite Hq.
  - intros quote quotes rest Hc. unfold first_close, py_get. simpl. by rewrite Hc.
  - intros data Hd. destruct data; try done. by destruct (Hd members).
  - intros net ds i symbol data Hn [Hc|[e Hc]].
    + by eapply yields_no_close.
    + by eapply yields_walk_fails.
Qed.

(** X13. Of a close that is present and not null only a number is
    recorded: an integer as it is, a float rounded, and a JSON boolean,
    which Python rounds as the integer 1 or 0.  A close that is a
    string, a list or an object makes [round] raise, and the symbol
    yields no record. *)
Theorem only_numbers_are_recorded net ds i symbol data close0 :
  net i (url symbol) = Ok data →
  first_close data = Ok (Some close0) →
  (yields net ds i symbol = [] ↔
   (∃ s, close0 = JStr s) ∨ (∃ items, close0 = JArr items)
   ∨ (∃ members, close0 = JObj members))
  ∧ (∀ z, close0 = JInt z →
          price <$> yields net ds i symbol = [NInt z])
  ∧ (∀ x, close0 = JFloat x →
          price <$> yields net ds i symbol = [NFloat (float_round2 x)])
  ∧ (∀ b, close0 = JBool b →
          price <$> yields net ds i symbol = [NInt (if b then 1 else 0)]).
Proof.
  intros Hn Hc.
  assert (Hnull : close0 ≠ JNull).
  { intros ->. revert Hc. unfold first_close.
    destruct (py_get data "chart" (JObj [])) as [chart|]; [|done]. simpl.
    destruct (py_get chart "result" (JArr [])) as [res|]; [|done]. simpl.
    destruct (py_bool res); [|done].
    destruct (py_index0 res) as [r0|]; [|done]. simpl.
    destruct (py_get r0 "indicators" (JObj [])) as [ind|]; [|done]. simpl.
    destruct (py_get ind "quote" (JArr [JObj []])) as [qs|]; [|done]. simpl.
    destruct (py_index0 qs) as [q|]; [|done]. simpl.
    destruct (py_get q "close" (JArr [])) as [cs|]; [|done]. simpl.
    destruct (py_bool cs); [|done].
    destruct (py_index0 cs) as [c0|]; [|done]. simpl.
    destruct (py_is_None c0) eqn:Hnone; [done|].
    intros [= ->]. done. }
  split_and!.
  - destruct close0; try done.
    + rewrite (yields_price _ ds _ _ _ _ _ Hn Hc eq_refl). split; [done|].
      intros [[? ?]|[[? ?]|[? ?]]]; done.
    + rewrite (yields_price _ ds _ _ _ _ _ Hn Hc eq_refl). split; [done|].
      intros [[? ?]|[[? ?]|[? ?]]]; done.
    + rewrite (yields_price _ ds _ _ _ _ _ Hn Hc eq_refl). split; [done|].
      intros [[? ?]|[[? ?]|[? ?]]]; done.
    + rewrite (yields_round_fails _ ds _ _ _ _ _ Hn Hc eq_refl).
      split; [|done]. intros _. left. by eexists.
    + rewrite (yields_round_fails _ ds _ _ _ _ _ Hn Hc eq_refl).
      split; [|done]. intros _. right. left. by eexists.
    + rewrite (yields_round_fails _ ds _ _ _ _ _ Hn Hc eq_refl).
      split; [|done]. intros _. right. right. by eexists.
  - intros z ->. by rewrite (yields_price _ ds _ _ _ _ _ Hn Hc eq_refl).
  - intros x ->. by rewrite (yields_price _ ds _ _ _ _ _ Hn Hc eq_refl).
  - intros b ->. by rewrite (yields_price _ ds _ _ _ _ _ Hn Hc eq_refl).
Qed.

(** *** Normalizing a symbol with no other dot *)

Lemma clean_symbol_plain (s : string) :
  str_contains "." s = false → clean_symbol s = s.
Proof.
  unfold clean_symbol, str_replace.
  induction s as [|c s IH]; [done|]. simpl str_contains.
  intros [Hc Hs]%orb_false_iff. apply bool_decide_eq_false in Hc.
  rewrite rep_no_match.
  - by rewrite IH.
  - simpl. by destruct (decide ("."%char = c)) as [<-|?].
Qed.

(** X5. On a symbol whose base holds no dot, normalization is exactly
    the removal of the exchange suffix: [base.CA] becomes [base], and a
    symbol with no dot at all is left as it is. *)
Theorem clean_symbol_strips_suffix_of_plain_base (base : string) :
  str_contains "." base = false →
  clean_symbol (base +:+ ".CA") = base ∧ clean_symbol base = base.
Proof.
  intros Hb. split; [|by apply clean_symbol_plain].
  rewrite <-(string_app_nil_r (base +:+ ".CA")), string_app_assoc.
  rewrite clean_symbol_app_CA, (clean_symbol_plain base Hb).
  apply string_app_nil_r.
Qed.

End ExtractMore.

(** ** Stage 2: validation *)

Section ValidateProps.
Context `{FloatOps}.
Import Validate.

Implicit Types (line : string) (lines : list string).
Implicit Types (data unique_data : list row) (seen : gset string).
Implicit Types (ctx : context) (fs : files).

(** *** Reading the rows *)

Lemma malformed_parse_row line : malformed line ↔ parse_row line = None.
Proof.
  unfold malformed, parse_row. simpl.
  destruct (decide _) as [Hlen|Hlen]; simpl.
  - destruct (float_of_str _); simpl; split; try done.
    + by intros [?|?].
    + by right.
  - split; [done|]. by left.
Qed.

(** The loop body never raises: the only exception of its [try] is the
    [ValueError] of [float], which it handles. *)
Lemma loop_body_parse_row data line :
  loop_body data line = Ok (data ++ option_list (parse_row line)).
Proof.
  unfold loop_body, parse_row, py_float. simpl.
  destruct (decide _) as [Hlen|Hlen]; simpl; [|by rewrite app_nil_r].
  destruct (float_of_str _); simpl; [done|by rewrite app_nil_r].
Qed.

Lemma for_lines_omap lines data :
  for_lines lines data = Ok (data ++ omap parse_row lines).
Proof.
  revert data. induction lines as [|line rest IH]; intros data; simpl.
  - by rewrite app_nil_r.
  - rewrite loop_body_parse_row. simpl. rewrite IH, <-app_assoc.
    by destruct (parse_row line).
Qed.

Lemma app_singleton_ne {A} (l : list A) (x : A) : l ++ [x] ≠ l.
Proof.
  intros Heq. apply (f_equal length) in Heq.
  rewrite length_app in Heq. simpl in Heq. lia.
Qed.

Lemma omap_skip {A B} (f : A → option B) (pre post : list A) (x : A) :
  f x = None → omap f (pre ++ x :: post) = omap f (pre ++ post).
Proof. intros Hx. rewrite !omap_app. simpl. by rewrite Hx. Qed.

(** *** Removing duplicates *)

Lemma remove_duplicates_first_seen data seen unique_data :
  remove_duplicates data seen unique_data = unique_data ++ first_seen seen data.
Proof.
  revert seen unique_data.
  induction data as [|row rest IH]; intros seen unique_data; simpl.
  - by rewrite app_nil_r.
  - case_decide; [apply IH|]. by rewrite IH, <-app_assoc.
Qed.

Lemma first_seen_not_seen seen data r :
  r ∈ first_seen seen data → symbol r ∉ seen.
Proof.
  revert seen. induction data as [|row rest IH]; intros seen; simpl.
  - by intros ?%elem_of_nil.
  - case_decide as Hin; [apply IH|].
    intros [->|Hr]%elem_of_cons; [done|].
    apply IH in Hr. set_solver.
Qed.

Lemma first_seen_sublist seen data : first_seen seen data `sublist_of` data.
Proof.
  revert seen. induction data as [|row rest IH]; intros seen; simpl.
  - done.
  - case_decide; [by apply sublist_cons|by apply sublist_skip].
Qed.

Lemma first_seen_NoDup seen data : NoDup (symbol <$> first_seen seen data).
Proof.
  revert seen. induction data as [|row rest IH]; intros seen; simpl.
  - constructor.
  - case_decide; [apply IH|].
    rewrite fmap_cons. constructor; [|apply IH].
    intros (r & Heq & Hr)%list_elem_of_fmap.
    apply first_seen_not_seen in Hr. set_solver.
Qed.

Lemma first_seen_covers seen data r :
  r ∈ data → symbol r ∉ seen → symbol r ∈ symbol <$> first_seen seen data.
Proof.
  revert seen. induction data as [|row rest IH]; intros seen; simpl.
  - by intros ?%elem_of_nil.
  - intros Hr Hseen. case_decide as Hin.
    + apply elem_of_cons in Hr as [->|Hr]; [done|]. by apply IH.
    + rewrite fmap_cons.
      destruct (decide (symbol r = symbol row)) as [->|Hne].
      { apply elem_of_cons. by left. }
      apply elem_of_cons in Hr as [->|Hr]; [done|].
      apply elem_of_cons. right. apply IH; [done|].
      by rewrite not_elem_of_union, not_elem_of_singleton.
Qed.


(** *** The stage *)

Lemma hive_data_ne_hql_script (d : string) : hive_data d ≠ hql_script d.
Proof. intros Heq. vm_compute in Heq. discriminate. Qed.

(** With the raw artifact in place the stage returns: it writes the
    clean dataset of the well-formed rows and the script, and returns
    the script's path. *)
Lemma validate_and_prepare_ok ctx fs path contents :
  xcom_extract_data ctx = Some path →
  fs !! path = Some contents →
  validate_and_prepare ctx fs =
    Ok (<[hql_script (ds ctx) := hql_text (hive_data (ds ctx)) (ds ctx)]>
          (<[hive_data (ds ctx) :=
               hive_text (first_seen ∅
                 (omap parse_row
                    (drop 1 (file_lines (universal_newlines contents)))))]> fs),
        hql_script (ds ctx)).
Proof.
  intros Hx Hfs. unfold validate_and_prepare, open_read, read_data.
  rewrite Hx, Hfs. simpl. rewrite for_lines_omap. simpl.
  by rewrite remove_duplicates_first_seen.
Qed.


(** C4. A line is passed over, leaving [data] as it was, exactly when
    it is malformed: it does not split into three fields or its price
    field is not a number.  The loop body raises on no line.  A
    malformed line among the lines changes neither the rows read from
    the others nor, with it, the result of removing duplicates, and two
    raw files that differ by a malformed line give the same clean
    dataset. *)
Theorem malformed_rows_are_skipped line :
  (∀ data, loop_body data line = Ok data ↔ malformed line)
  ∧ (∀ data, ∃ data', loop_body data line = Ok data')
  ∧ (malformed line → ∀ pre post data,
       for_lines (pre ++ line :: post) data = for_lines (pre ++ post) data)
  ∧ (malformed line → ∀ pre post data data',
       for_lines (pre ++ line :: post) [] = Ok data →
       for_lines (pre ++ post) [] = Ok data' →
       remove_duplicates data ∅ [] = remove_duplicates data' ∅ [])
  ∧ (malformed line → ∀ ctx fs fs' path contents contents' header pre post,
       xcom_extract_data ctx = Some path →
       fs !! path = Some contents →
       fs' !! path = Some contents' →
       file_lines (universal_newlines contents) = header :: pre ++ line :: post →
       file_lines (universal_newlines contents') = header :: pre ++ post →
       ∃ out out',
         validate_and_prepare ctx fs = Ok out
         ∧ validate_and_prepare ctx fs' = Ok out'
         ∧ out.1 !! hive_data (ds ctx) = out'.1 !! hive_data (ds ctx)).
Proof.
  split_and!.
  - intros data. rewrite loop_body_parse_row, malformed_parse_row.
    destruct (parse_row line) as [r|]; simpl.
    + split; [|done]. intros [= Heq]. by apply app_singleton_ne in Heq.
    + by rewrite app_nil_r.
  - intros data. rewrite loop_body_parse_row. by eexists.
  - intros Hm%malformed_parse_row pre post data.
    by rewrite !for_lines_omap, omap_skip.
  - intros Hm%malformed_parse_row pre post data data'.
    rewrite !for_lines_omap, omap_skip by done. congruence.
  - intros Hm%malformed_parse_row ctx fs fs' path contents contents'
      header pre post Hx Hfs Hfs' Hl Hl'.
    do 2 eexists.
    rewrite (validate_and_prepare_ok _ _ _ _ Hx Hfs).
    rewrite (validate_and_prepare_ok _ _ _ _ Hx Hfs').
    split_and!; [done..|]. simpl.
    rewrite !(lookup_insert_ne _ (hql_script _))
      by (apply not_eq_sym, hive_data_ne_hql_script).
    rewrite !lookup_insert_eq, Hl, Hl', !skipn_cons, !drop_0.
    by rewrite omap_skip.
Qed.

(** C8. When every data row of the raw file is malformed the stage
    still returns: it writes an empty clean dataset and the load
    script, and returns the script's path. *)
Theorem all_malformed_gives_empty_dataset ctx fs path contents :
  xcom_extract_data ctx = Some path →
  fs !! path = Some contents →
  (∀ line, line ∈ drop 1 (file_lines (universal_newlines contents)) →
           malformed line) →
  ∃ fs',
    validate_and_prepare ctx fs = Ok (fs', hql_script (ds ctx))
    ∧ fs' !! hive_data (ds ctx) = Some ""
    ∧ fs' !! hql_script (ds ctx)
      = Some (hql_text (hive_data (ds ctx)) (ds ctx)).
Proof.
  intros Hx Hfs Hall. eexists.
  rewrite (validate_and_prepare_ok _ _ _ _ Hx Hfs).
  split_and!; [done| |by rewrite lookup_insert_eq].
  rewrite lookup_insert_ne by (apply not_eq_sym, hive_data_ne_hql_script).
  rewrite lookup_insert_eq. do 2 f_equal.
  assert (Hnil : omap parse_row
            (drop 1 (file_lines (universal_newlines contents))) = []).
  { induction (drop 1 (file_lines (universal_newlines contents)))
      as [|line rest IH]; [done|]. simpl.
    rewrite (proj1 (malformed_parse_row line))
      by (apply Hall, elem_of_cons; by left).
    apply IH. intros l Hl. apply Hall, elem_of_cons. by right. }
  by rewrite Hnil.
Qed.

(** C10. The outputs of the stage are a function of the contents of the
    raw file and of the run date: two runs that read the same contents
    for the same date, from any two file systems and under any two
    paths, both return, return the same script path, and write the same
    clean dataset and the same script text; every other file stays as
    it was. *)
Theorem validate_outputs_depend_on_contents_and_date
    ctx1 ctx2 fs1 fs2 path1 path2 contents :
  ds ctx1 = ds ctx2 →
  xcom_extract_data ctx1 = Some path1 →
  xcom_extract_data ctx2 = Some path2 →
  fs1 !! path1 = Some contents →
  fs2 !! path2 = Some contents →
  ∃ fs1' fs2' script_path clean script,
    validate_and_prepare ctx1 fs1 = Ok (fs1', script_path)
    ∧ validate_and_prepare ctx2 fs2 = Ok (fs2', script_path)
    ∧ fs1' !! hive_data (ds ctx1) = Some clean
    ∧ fs2' !! hive_data (ds ctx2) = Some clean
    ∧ fs1' !! script_path = Some script
    ∧ fs2' !! script_path = Some script
    ∧ (∀ p, p ≠ hive_data (ds ctx1) → p ≠ script_path →
            fs1' !! p = fs1 !! p ∧ fs2' !! p = fs2 !! p).
Proof.
  intros Hds Hx1 Hx2 Hfs1 Hfs2. do 5 eexists.
  rewrite (validate_and_prepare_ok _ _ _ _ Hx1 Hfs1).
  rewrite (validate_and_prepare_ok _ _ _ _ Hx2 Hfs2).
  rewrite <-Hds.
  split_and!; [done..| | | | |].
  - rewrite lookup_insert_ne by (apply not_eq_sym, hive_data_ne_hql_script).
    apply lookup_insert_eq.
  - rewrite lookup_insert_ne by (apply not_eq_sym, hive_data_ne_hql_script).
    apply lookup_insert_eq.
  - apply lookup_insert_eq.
  - apply lookup_insert_eq.
  - intros p Hp1 Hp2. by rewrite !lookup_insert_ne.
Qed.

End ValidateProps.

(** ** Stage 2: fields, failures, duplicates and paths *)

Section ValidateMore.
Context `{FloatOps}.
Import Validate.

Implicit Types (line : string) (data : list row) (seen : gset string).
Implicit Types (ctx : context) (fs : files) (c : ascii).

(** *** Fields *)

Lemma str_split_length c (s : string) :
  length (str_split c s) = S (str_count c s).
Proof.
  induction s as [|c' s IH]; [done|]. simpl.
  destruct (decide (c' = c)); simpl; [by rewrite IH|].
  destruct (str_split c s); simpl in *; [done|by rewrite <-IH].
Qed.

Lemma str_split_fields c (s : string) :
  Forall (λ f, str_contains c f = false) (str_split c s).
Proof.
  induction s as [|c' s IH]; simpl; [by constructor|].
  destruct (decide (c' = c)) as [->|Hne]; [by constructor|].
  pose proof (str_split_length c s) as Hl.
  destruct (str_split c s) as [|f fs]; [done|].
  apply Forall_cons in IH as [Hf Hfs]. constructor; [|done].
  simpl. rewrite Hf, orb_false_r. by apply bool_decide_eq_false.
Qed.

Lemma str_split_plain c (s : string) :
  str_contains c s = false → str_split c s = [s].
Proof.
  induction s as [|c' s IH]; [done|]. simpl.
  intros [Hc Hs]%orb_false_iff. apply bool_decide_eq_false in Hc.
  rewrite decide_False by done. by rewrite IH.
Qed.

Lemma str_count_contains c (s : string) :
  str_contains c s = false ↔ str_count c s = 0%nat.
Proof.
  induction s as [|c' s IH]; [done|]. simpl.
  rewrite orb_false_iff, IH, bool_decide_eq_false.
  destruct (decide (c' = c)); simpl; [|tauto].
  split; [by intros [? _]|done].
Qed.

(** X6. A line has one field more than its stripped text has commas, so
    it is well formed only with exactly two commas: a row with a comma
    inside a field is dropped like a row that lacks a field.  The symbol
    of a row that is read holds no comma. *)
Theorem row_needs_exactly_two_commas line :
  length (str_split "," (str_strip line)) = S (str_count "," (str_strip line))
  ∧ (str_count "," (str_strip line) ≠ 2%nat → malformed line)
  ∧ (∀ r, parse_row line = Some r →
          str_count "," (str_strip line) = 2%nat
          ∧ str_contains "," (symbol r) = false).
Proof.
  pose proof (str_split_length "," (str_strip line)) as Hlen.
  split_and!; [done| |].
  - intros Hne. left. rewrite Hlen. lia.
  - intros r. unfold parse_row. simpl.
    pose proof (str_split_fields "," (str_strip line)) as Hfields.
    destruct (decide _) as [Hl|Hl]; [|done].
    destruct (float_of_str _); [|done]. simpl. intros [= <-]. simpl.
    split; [rewrite Hlen in Hl; lia|].
    destruct (str_split "," (str_strip line)) as [|f0 [|f1 fs]]; [done..|].
    by apply Forall_cons in Hfields as [_ [? _]%Forall_cons].
Qed.

(** *** Failures *)

(** X7. The stage raises only when it cannot open the raw artifact: a
    [TypeError] when the extract task handed over no path, an [OSError]
    when no file is at the path.  With the file in place it returns,
    whatever the file holds. *)
Theorem validate_raises_only_on_open ctx fs :
  (∀ e, validate_and_prepare ctx fs = Raise e ↔
        (xcom_extract_data ctx = None ∧ e = TypeError)
        ∨ (∃ path, xcom_extract_data ctx = Some path ∧ fs !! path = None
                   ∧ e = OSError "No such file or directory"))
  ∧ ((∃ out, validate_and_prepare ctx fs = Ok out) ↔
     ∃ path, xcom_extract_data ctx = Some path ∧ is_Some (fs !! path)).
Proof.
  destruct (xcom_extract_data ctx) as [path|] eqn:Hx.
  - destruct (fs !! path) as [contents|] eqn:Hfs.
    + rewrite (validate_and_prepare_ok _ _ _ _ Hx Hfs). split.
      * intros e. split; [done|].
        intros [[? _]|(p & ? & ? & _)]; [done|]. by simplify_eq.
      * split; [|by eexists]. intros _. exists path. by rewrite Hfs.
    + assert (Hr : validate_and_prepare ctx fs
                   = Raise (OSError "No such file or directory")).
      { unfold validate_and_prepare, open_read. by rewrite Hx, Hfs. }
      rewrite Hr. split.
      * intros e. split.
        -- intros [= <-]. right. by exists path.
        -- intros [[? _]|(p & ? & ? & ->)]; done.
      * split; [by intros [? ?]|].
        intros (p & ? & Hp). simplify_eq. rewrite Hfs in Hp. by destruct Hp.
  - assert (Hr : validate_and_prepare ctx fs = Raise TypeError).
    { unfold validate_and_prepare, open_read. by rewrite Hx. }
    rewrite Hr. split.
    + intros e. split.
      * intros [= <-]. by left.
      * intros [[_ ->]|(p & ? & _)]; done.
    + split; [by intros [? ?]|]. by intros (p & ? & _).
Qed.

(** *** Duplicates *)

Lemma first_seen_id seen data :
  NoDup (symbol <$> data) → (∀ r, r ∈ data → symbol r ∉ seen) →
  first_seen seen data = data.
Proof.
  revert seen. induction data as [|row rest IH]; intros seen; [done|].
  rewrite fmap_cons. intros [Hrow Hrest]%NoDup_cons Hseen. simpl.
  rewrite decide_False by (apply Hseen, elem_of_cons; by left).
  f_equal. apply IH; [done|]. intros r Hr.
  rewrite not_elem_of_union, not_elem_of_singleton. split.
  - intros Heq. apply Hrow. rewrite <-Heq. by apply list_elem_of_fmap_2.
  - apply Hseen, elem_of_cons. by right.
Qed.

Lemma first_seen_symbols data :
  list_to_set (symbol <$> first_seen ∅ data)
  =@{gset string} list_to_set (symbol <$> data).
Proof.
  apply set_eq. intros s. rewrite !elem_of_list_to_set. split.
  - intros Hs. eapply elem_of_sublist; [done|].
    apply fmap_sublist, first_seen_sublist.
  - intros (r & -> & Hr)%list_elem_of_fmap.
    apply first_seen_covers; [done|]. apply not_elem_of_empty.
Qed.

(** X8. Removing duplicates leaves data with pairwise distinct symbols as
    it is, so doing it twice is doing it once; the result has one row
    for each distinct symbol of the data, and never more rows than the
    data. *)
Theorem remove_duplicates_fixes_distinct_data data :
  (NoDup (symbol <$> data) → remove_duplicates data ∅ [] = data)
  ∧ remove_duplicates (remove_duplicates data ∅ []) ∅ []
    = remove_duplicates data ∅ []
  ∧ length (remove_duplicates data ∅ [])
    = size (list_to_set (symbol <$> data) : gset string)
  ∧ (length (remove_duplicates data ∅ []) ≤ length data)%nat.
Proof.
  rewrite !remove_duplicates_first_seen, !app_nil_l.
  assert (Hid : ∀ d, NoDup (symbol <$> d) → first_seen ∅ d = d).
  { intros d Hd. apply first_seen_id; [done|].
    intros r _. apply not_elem_of_empty. }
  split_and!.
  - apply Hid.
  - apply Hid, first_seen_NoDup.
  - rewrite <-first_seen_symbols, size_list_to_set by apply first_seen_NoDup.
    by rewrite length_fmap.
  - apply sublist_length, first_seen_sublist.
Qed.

(** *** Paths *)

Lemma string_app_inj_r (s1 s2 t : string) : s1 +:+ t = s2 +:+ t → s1 = s2.
Proof.
  revert s2. induction s1 as [|c s1 IH]; intros [|c' s2] Heq; [done| | |].
  - apply (f_equal String.length) in Heq.
    rewrite !string_app_length in Heq. simpl in Heq. lia.
  - apply (f_equal String.length) in Heq.
    rewrite !string_app_length in Heq. simpl in Heq. lia.
  - rewrite !string_app_cons in Heq. injection Heq as -> Heq.
    f_equal. by apply IH.
Qed.

Lemma hive_data_inj (d1 d2 : string) : hive_data d1 = hive_data d2 → d1 = d2.
Proof.
  unfold hive_data. intros Heq%(inj (String.app _)). by eapply string_app_inj_r.
Qed.

Lemma hql_script_inj (d1 d2 : string) : hql_script d1 = hql_script d2 → d1 = d2.
Proof.
  unfold hql_script. intros Heq%(inj (String.app _)). by eapply string_app_inj_r.
Qed.

Lemma csv_path_inj (d1 d2 : string) :
  Extract.csv_path d1 = Extract.csv_path d2 → d1 = d2.
Proof.
  unfold Extract.csv_path. intros Heq%(inj (String.app _)).
  by eapply string_app_inj_r.
Qed.

Lemma artifact_paths_distinct (d1 d2 : string) :
  Extract.csv_path d1 ≠ hive_data d2
  ∧ Extract.csv_path d1 ≠ hql_script d2
  ∧ hive_data d1 ≠ hql_script d2.
Proof.
  split_and!; intros Heq; vm_compute in Heq; discriminate.
Qed.

(** X9. The artifacts are keyed by the run date: each of the three paths
    determines its date, and no path of one kind is a path of another.
    So a run of the stage for one date leaves the artifacts of every
    other date, and every raw artifact, as they were. *)
Theorem artifacts_are_keyed_by_date :
  (∀ d1 d2, Extract.csv_path d1 = Extract.csv_path d2 → d1 = d2)
  ∧ (∀ d1 d2, hive_data d1 = hive_data d2 → d1 = d2)
  ∧ (∀ d1 d2, hql_script d1 = hql_script d2 → d1 = d2)
  ∧ (∀ d1 d2, Extract.csv_path d1 ≠ hive_data d2
              ∧ Extract.csv_path d1 ≠ hql_script d2
              ∧ hive_data d1 ≠ hql_script d2)
  ∧ (∀ ctx fs fs' script d,
       validate_and_prepare ctx fs = Ok (fs', script) →
       fs' !! Extract.csv_path d = fs !! Extract.csv_path d
       ∧ (d ≠ ds ctx →
          fs' !! hive_data d = fs !! hive_data d
          ∧ fs' !! hql_script d = fs !! hql_script d)).
Proof.
  split_and!; [apply csv_path_inj|apply hive_data_inj|apply hql_script_inj
              |apply artifact_paths_distinct|].
  intros ctx fs fs' script d Hrun.
  destruct (xcom_extract_data ctx) as [path|] eqn:Hx;
    [|by unfold validate_and_prepare, open_read in Hrun; rewrite Hx in Hrun].
  destruct (fs !! path) as [contents|] eqn:Hfs;
    [|by unfold validate_and_prepare, open_read in Hrun; rewrite Hx, Hfs in Hrun].
  rewrite (validate_and_prepare_ok _ _ _ _ Hx Hfs) in Hrun.
  injection Hrun as <- <-.
  pose proof (artifact_paths_distinct d (ds ctx)) as (Hc1 & Hc2 & _).
  pose proof (artifact_paths_distinct d (ds ctx)) as (_ & _ & Hh1).
  pose proof (artifact_paths_distinct (ds ctx) d) as (_ & _ & Hh2).
  split.
  - by rewrite !lookup_insert_ne.
  - intros Hd. split.
    + rewrite !lookup_insert_ne; [done| |by apply not_eq_sym].
      intros Heq%hive_data_inj. by apply Hd.
    + rewrite !lookup_insert_ne; [done|by apply not_eq_sym|].
      intros Heq%hql_script_inj. by apply Hd.
Qed.

(** *** Line ends *)

Lemma universal_newlines_with_crlf (s : string) :
  str_contains CR s = false →
  universal_newlines (Pipeline.with_crlf s) = s.
Proof.
  induction s as [|c s IH]; [done|]. simpl str_contains.
  intros [Hc Hs]%orb_false_iff. apply bool_decide_eq_false in Hc.
  simpl Pipeline.with_crlf. destruct (decide (c = LF)) as [->|Hlf].
  - simpl. by rewrite IH.
  - simpl. rewrite decide_False by done. by rewrite IH.
Qed.

(** X14. A raw artifact saved with carriage return and line feed at the
    end of its lines is read as the same artifact with line feeds: the
    stage writes the same clean dataset and the same script for both. *)
Theorem line_ends_do_not_matter ctx fs path contents :
  xcom_extract_data ctx = Some path →
  str_contains CR contents = false →
  ∃ fs1 fs2,
    validate_and_prepare ctx (<[path := contents]> fs)
    = Ok (fs1, hql_script (ds ctx))
    ∧ validate_and_prepare ctx (<[path := Pipeline.with_crlf contents]> fs)
      = Ok (fs2, hql_script (ds ctx))
    ∧ fs1 !! hive_data (ds ctx) = fs2 !! hive_data (ds ctx)
    ∧ fs1 !! hql_script (ds ctx) = fs2 !! hql_script (ds ctx).
Proof.
  intros Hx Hcr. do 2 eexists.
  rewrite (validate_and_prepare_ok ctx _ path contents Hx)
    by apply lookup_insert_eq.
  rewrite (validate_and_prepare_ok ctx _ path (Pipeline.with_crlf contents) Hx)
    by apply lookup_insert_eq.
  rewrite (universal_newlines_with_crlf _ Hcr), (universal_newlines_id _ Hcr).
  split_and!; [done..| |].
  - rewrite !(lookup_insert_ne _ (hql_script _))
      by (apply not_eq_sym, hive_data_ne_hql_script).
    by rewrite !lookup_insert_eq.
  - by rewrite !lookup_insert_eq.
Qed.

End ValidateMore.

(** ** From the raw artifact to the clean dataset *)

Section PipelineProps.
Context `{FloatOps}.

Implicit Types (net : network) (ds : string) (fs : files).
Implicit Types (rec : Extract.price_record) (c : ascii).

Lemma str_contains_pretty_N_go c (x : N) (s : string) :
  Ascii.is_nat c = None →
  str_contains c (pretty_N_go x s) = str_contains c s.
Proof.
  intros Hc. revert s. induction (N.lt_wf_0 x) as [x _ IH]; intros s.
  destruct (decide (x = 0)%N) as [->|Hx]; [by rewrite pretty_N_go_0|].
  rewrite pretty_N_go_step by lia.
  rewrite IH by (apply N.div_lt; lia). simpl.
  replace (bool_decide (pretty_N_char (x `mod` 10) = c)) with false; [done|].
  symmetry. apply bool_decide_eq_false. intros <-.
  unfold pretty_N_char in Hc. by repeat case_match.
Qed.

(** The text of a Python int holds digits and at most a minus sign. *)
Lemma str_contains_pretty_Z c (z : Z) :
  Ascii.is_nat c = None → c ≠ "-"%char → str_contains c (pretty z) = false.
Proof.
  intros Hc Hm.
  assert (HN : ∀ p, str_contains c (pretty (N.pos p)) = false).
  { intros p. unfold pretty, pretty_N. case_decide; [done|].
    by rewrite str_contains_pretty_N_go. }
  destruct z as [|p|p].
  - change (pretty 0%Z) with "0". simpl.
    rewrite orb_false_r. apply bool_decide_eq_false. by intros <-.
  - apply HN.
  - change (pretty (Z.neg p)) with (String "-" (pretty (N.pos p))).
    simpl. rewrite (HN p), orb_false_r.
    apply bool_decide_eq_false. by intros <-.
Qed.

Lemma clean_egx_symbol_plain c (s : string) :
  s ∈ Extract.egx_symbols → c = ","%char ∨ c = CR ∨ c = LF →
  str_contains c (Extract.clean_symbol s) = false.
Proof.
  unfold Extract.egx_symbols. intros Hs Hc.
  repeat (apply elem_of_cons in Hs as [->|Hs];
          [by destruct Hc as [->|[->| ->]]|]).
  by apply elem_of_nil in Hs.
Qed.

Lemma str_contains_rstrip c (s : string) :
  str_contains c s = false → str_contains c (str_rstrip s) = false.
Proof.
  induction s as [|c' s IH]; [done|]. simpl.
  intros [Hc Hs]%orb_false_iff. specialize (IH Hs).
  destruct (str_rstrip s).
  - destruct (py_isspace c'); [done|]. simpl. by rewrite Hc.
  - simpl in *. by rewrite Hc, IH.
Qed.

(** The fields of a line with at least two commas. *)
Lemma str_split_strip_row (d t : string) :
  str_contains "," d = false →
  str_split "," (str_strip (d +:+ String "," t))
  = str_lstrip d :: str_split "," (str_rstrip t).
Proof.
  intros Hd. unfold str_strip.
  rewrite str_lstrip_comma, str_rstrip_comma, str_rstrip_comma_cons.
  by rewrite str_split_comma by by apply str_contains_lstrip.
Qed.

Lemma parse_row_fields (d sy t : string) :
  str_contains "," d = false → str_contains "," sy = false →
  Validate.parse_row (d +:+ String "," (sy +:+ String "," t))
  = if str_contains "," (str_rstrip t) then None
    else x ← float_of_str (str_rstrip t);
         Some {| Validate.symbol := sy; Validate.price := x |}.
Proof.
  intros Hd Hsy. unfold Validate.parse_row. cbv zeta.
  rewrite (str_split_strip_row d _ Hd), str_rstrip_comma, str_rstrip_comma_cons.
  rewrite (str_split_comma sy _ Hsy).
  destruct (str_contains "," (str_rstrip t)) eqn:Ht.
  - rewrite decide_False; [done|]. simpl. rewrite str_split_length.
    intros [= Hc]. apply str_count_contains in Hc. congruence.
  - by rewrite (str_split_plain _ _ Ht).
Qed.

(** X10. The date column of the raw artifact is not read: two lines that
    differ only in their first field (neither with a comma in it) give
    the same row or are both passed over, so the clean dataset is the
    same for every date written in the rows. *)
Theorem date_field_is_not_read (d1 d2 rest : string) :
  str_contains "," d1 = false → str_contains "," d2 = false →
  Validate.parse_row (d1 +:+ String "," rest)
  = Validate.parse_row (d2 +:+ String "," rest)
  ∧ ∀ data, Validate.loop_body data (d1 +:+ String "," rest)
            = Validate.loop_body data (d2 +:+ String "," rest).
Proof.
  intros Hd1 Hd2.
  assert (Hp : Validate.parse_row (d1 +:+ String "," rest)
               = Validate.parse_row (d2 +:+ String "," rest)).
  { unfold Validate.parse_row. cbv zeta.
    rewrite (str_split_strip_row d1 _ Hd1), (str_split_strip_row d2 _ Hd2).
    simpl length. by destruct (decide _). }
  split; [done|]. intros data. by rewrite !loop_body_parse_row, Hp.
Qed.

(** *** The hand-off *)

Lemma extract_ok_inv net ds fs fs1 csv :
  Extract.extract_stock_data net ds fs = Ok (fs1, csv) →
  csv = Extract.csv_path ds
  ∧ fs1 = <[Extract.csv_path ds :=
              Extract.csv_text
                (Extract.for_symbols net ds 0 Extract.egx_symbols [])]> fs
  ∧ Extract.for_symbols net ds 0 Extract.egx_symbols [] ≠ [].
Proof.
  unfold Extract.extract_stock_data, Extract.extract_from.
  destruct (Extract.for_symbols net ds 0 Extract.egx_symbols []); [done|].
  by intros [= <- <-].
Qed.

Lemma extract_raise_inv net ds fs e :
  Extract.extract_stock_data net ds fs = Raise e →
  e = ValueError "No data extracted"
  ∧ Extract.for_symbols net ds 0 Extract.egx_symbols [] = [].
Proof.
  unfold Extract.extract_stock_data, Extract.extract_from.
  destruct (Extract.for_symbols net ds 0 Extract.egx_symbols []); [|done].
  by intros [= <-].
Qed.

Lemma extract_then_validate_unfold net ds fs :
  Pipeline.extract_then_validate net ds fs
  = match Extract.extract_stock_data net ds fs with
    | Ok (fs1, csv) => Validate.validate_and_prepare (Pipeline.handoff ds csv) fs1
    | Raise e => Raise e
    end.
Proof.
  unfold Pipeline.extract_then_validate.
  by destruct (Extract.extract_stock_data net ds fs) as [[? ?]|].
Qed.

(** X11. Validation cannot fail after an extraction that succeeded: run
    on the path extraction returned, it finds the raw artifact and
    returns the script path of the run date.  The two stages together
    raise only the error of the empty batch, and on success they have
    written the three artifacts of the run date and nothing else. *)
Theorem validation_follows_extraction net ds fs :
  (∀ fs1 csv,
     Extract.extract_stock_data net ds fs = Ok (fs1, csv) →
     ∃ fs2,
       Validate.validate_and_prepare (Pipeline.handoff ds csv) fs1
       = Ok (fs2, Validate.hql_script ds)
       ∧ fs2 !! csv = fs1 !! csv
       ∧ is_Some (fs2 !! Extract.csv_path ds)
       ∧ is_Some (fs2 !! Validate.hive_data ds)
       ∧ is_Some (fs2 !! Validate.hql_script ds)
       ∧ ∀ p, p ≠ Extract.csv_path ds → p ≠ Validate.hive_data ds →
              p ≠ Validate.hql_script ds → fs2 !! p = fs !! p)
  ∧ (∀ e, Pipeline.extract_then_validate net ds fs = Raise e ↔
          e = ValueError "No data extracted"
          ∧ Extract.for_symbols net ds 0 Extract.egx_symbols [] = [])
  ∧ ((∃ fs2, Pipeline.extract_then_validate net ds fs
             = Ok (fs2, Validate.hql_script ds))
     ↔ Extract.for_symbols net ds 0 Extract.egx_symbols [] ≠ []).
Proof.
  assert (Hstep : ∀ fs1 csv,
     Extract.extract_stock_data net ds fs = Ok (fs1, csv) →
     ∃ fs2,
       Validate.validate_and_prepare (Pipeline.handoff ds csv) fs1
       = Ok (fs2, Validate.hql_script ds)
       ∧ fs2 !! csv = fs1 !! csv
       ∧ is_Some (fs2 !! Extract.csv_path ds)
       ∧ is_Some (fs2 !! Validate.hive_data ds)
       ∧ is_Some (fs2 !! Validate.hql_script ds)
       ∧ ∀ p, p ≠ Extract.csv_path ds → p ≠ Validate.hive_data ds →
              p ≠ Validate.hql_script ds → fs2 !! p = fs !! p).
  { intros fs1 csv (-> & -> & Hne)%extract_ok_inv.
    pose proof (artifact_paths_distinct ds ds) as (Hch & Hcq & Hhq).
    eexists. erewrite validate_and_prepare_ok;
      [|reflexivity|apply lookup_insert_eq].
    simpl. split_and!; [done|..].
    - by rewrite !lookup_insert_ne by by apply not_eq_sym.
    - rewrite !lookup_insert_ne by (by apply not_eq_sym).
      by rewrite lookup_insert_eq.
    - rewrite lookup_insert_ne by (by apply not_eq_sym).
      by rewrite lookup_insert_eq.
    - by rewrite lookup_insert_eq.
    - intros p Hp1 Hp2 Hp3. by rewrite !lookup_insert_ne. }
  split_and!; [done| |].
  - intros e. rewrite extract_then_validate_unfold.
    destruct (Extract.extract_stock_data net ds fs) as [[fs1 csv]|e'] eqn:He.
    + destruct (Hstep fs1 csv eq_refl) as (fs2 & Hv & _).
      pose proof (extract_ok_inv _ _ _ _ _ He) as (_ & _ & Hne).
      rewrite Hv. split; [done|]. by intros [_ ?].
    + apply extract_raise_inv in He as [-> Hnil]. split.
      * by intros [= <-].
      * by intros [-> _].
  - rewrite extract_then_validate_unfold.
    destruct (Extract.extract_stock_data net ds fs) as [[fs1 csv]|e'] eqn:He.
    + destruct (Hstep fs1 csv eq_refl) as (fs2 & Hv & _).
      pose proof (extract_ok_inv _ _ _ _ _ He) as (_ & _ & Hne).
      rewrite Hv. split; [done|]. intros _. by exists fs2.
    + apply extract_raise_inv in He as [-> Hnil].
      split; [by intros [? ?]|done].
Qed.

(** *** What the clean dataset holds of the batch *)

Lemma csv_row_line rec : Extract.csv_row rec = Pipeline.csv_line rec +:+ nl.
Proof.
  unfold Extract.csv_row, Pipeline.csv_line.
  rewrite (string_app_assoc (Extract.date rec)).
  rewrite (string_app_cons "," (Extract.symbol rec +:+ _) nl).
  rewrite (string_app_assoc (Extract.symbol rec)).
  by rewrite (string_app_cons "," (str_of_number _) nl).
Qed.

Lemma csv_text_lines (all_data : list Extract.price_record) :
  Extract.csv_text all_data
  = str_concat ((λ l, l +:+ nl)
                  <$> ("date,stock_symbol,price" :: (Pipeline.csv_line <$> all_data))).
Proof.
  unfold Extract.csv_text. rewrite fmap_cons. unfold str_concat. simpl foldr.
  f_equal. rewrite <-list_fmap_compose. f_equal.
  apply list_fmap_ext. intros _ rec _. apply csv_row_line.
Qed.

Lemma str_contains_number c (n : number) :
  c = CR ∨ c = LF →
  (∀ x, str_contains c (float_repr x) = false) →
  str_contains c (str_of_number n) = false.
Proof.
  intros Hc Hrepr. destruct n as [z|x]; simpl; [|apply Hrepr].
  apply str_contains_pretty_Z; by destruct Hc as [-> | ->].
Qed.

Lemma batch_record net ds rec :
  rec ∈ Extract.for_symbols net ds 0 Extract.egx_symbols [] →
  Extract.date rec = ds
  ∧ ∃ s, s ∈ Extract.egx_symbols ∧ Extract.symbol rec = Extract.clean_symbol s.
Proof.
  rewrite for_symbols_yields, app_nil_l.
  intros (l & Hr & Hl)%list_elem_of_join.
  apply elem_of_lookup_imap in Hl as (i & s & -> & Hi).
  apply yields_inv in Hr as (data & close0 & price & _ & _ & _ & ->).
  split; [done|]. exists s. split; [|done]. by eapply list_elem_of_lookup_2.
Qed.

Lemma csv_line_plain net ds rec c :
  c = CR ∨ c = LF →
  str_contains c ds = false →
  (∀ x, str_contains c (float_repr x) = false) →
  rec ∈ Extract.for_symbols net ds 0 Extract.egx_symbols [] →
  str_contains c (Pipeline.csv_line rec) = false.
Proof.
  intros Hc Hds Hrepr (Hdate & s & Hs & Hsym)%batch_record.
  unfold Pipeline.csv_line. rewrite str_contains_app. simpl.
  rewrite str_contains_app. simpl.
  rewrite Hdate, Hds, Hsym, (clean_egx_symbol_plain c s Hs) by tauto.
  rewrite str_contains_number by done.
  assert (bool_decide (","%char = c) = false) as ->; [|done].
  apply bool_decide_eq_false. by destruct Hc as [-> | ->].
Qed.

(** The data rows the validation stage reads from the raw artifact are
    the rows extraction wrote. *)
Lemma raw_artifact_lines net ds :
  str_contains CR ds = false → str_contains LF ds = false →
  (∀ x, str_contains CR (float_repr x) = false
        ∧ str_contains LF (float_repr x) = false) →
  let all_data := Extract.for_symbols net ds 0 Extract.egx_symbols [] in
  drop 1 (file_lines (universal_newlines (Extract.csv_text all_data)))
  = Extract.csv_row <$> all_data.
Proof.
  intros Hcr Hlf Hrepr all_data. rewrite csv_text_lines.
  assert (Hlines : ∀ c, c = CR ∨ c = LF →
            Forall (λ l, str_contains c l = false)
              ("date,stock_symbol,price" :: (Pipeline.csv_line <$> all_data))).
  { intros c Hc. constructor; [by destruct Hc as [-> | ->]|].
    apply Forall_fmap, Forall_forall. intros rec Hrec. simpl.
    eapply csv_line_plain; try done; [by destruct Hc as [-> | ->]|].
    intros x. destruct (Hrepr x). by destruct Hc as [-> | ->]. }
  rewrite universal_newlines_id.
  - rewrite file_lines_concat by (apply Hlines; by right).
    rewrite fmap_cons. simpl drop. rewrite <-list_fmap_compose.
    apply list_fmap_ext. intros _ rec _. simpl. by rewrite csv_row_line.
  - apply str_contains_concat, Forall_fmap.
    eapply Forall_impl; [apply (Hlines CR); by left|].
    intros l Hl. simpl. by rewrite str_contains_app, Hl.
Qed.

Lemma parse_csv_row net ds rec :
  str_contains "," ds = false →
  rec ∈ Extract.for_symbols net ds 0 Extract.egx_symbols [] →
  Validate.parse_row (Extract.csv_row rec) = Pipeline.clean_row_of rec.
Proof.
  intros Hds (Hdate & s & Hs & Hsym)%batch_record.
  unfold Extract.csv_row.
  change (Extract.date rec +:+ "," +:+ Extract.symbol rec +:+ ","
          +:+ str_of_number (Extract.price rec) +:+ nl)
    with (Extract.date rec +:+ String "," (Extract.symbol rec
            +:+ String "," (str_of_number (Extract.price rec) +:+ nl))).
  rewrite parse_row_fields.
  - unfold Pipeline.clean_row_of, Pipeline.read_back. cbv zeta.
    by destruct (str_contains "," (str_rstrip _)).
  - by rewrite Hdate.
  - rewrite Hsym. apply clean_egx_symbol_plain; [done|by left].
Qed.

Lemma omap_parse_csv_rows net ds (l : list Extract.price_record) :
  str_contains "," ds = false →
  Forall (λ rec, rec ∈ Extract.for_symbols net ds 0 Extract.egx_symbols []) l →
  omap Validate.parse_row (Extract.csv_row <$> l) = omap Pipeline.clean_row_of l.
Proof.
  intros Hds. induction 1 as [|rec rest Hrec _ IH]; [done|].
  rewrite fmap_cons.
  change (omap Validate.parse_row (Extract.csv_row rec :: (Extract.csv_row <$> rest)))
    with (match Validate.parse_row (Extract.csv_row rec) with
          | Some y => y :: omap Validate.parse_row (Extract.csv_row <$> rest)
          | None => omap Validate.parse_row (Extract.csv_row <$> rest)
          end).
  by rewrite (parse_csv_row net ds rec Hds Hrec), IH.
Qed.

Lemma clean_rows_sublist (all_data : list Extract.price_record) :
  Validate.symbol <$> omap Pipeline.clean_row_of all_data
  `sublist_of` Extract.symbol <$> all_data.
Proof.
  induction all_data as [|rec rest IH]; [done|]. simpl.
  unfold Pipeline.clean_row_of at 1.
  destruct (Pipeline.read_back _); simpl.
  - by apply sublist_skip.
  - by apply sublist_cons.
Qed.

Lemma clean_egx_symbols_NoDup :
  NoDup (Extract.clean_symbol <$> Extract.egx_symbols).
Proof. apply (bool_decide_unpack _). by vm_compute. Qed.

(** X12. With a run date that holds no comma and no line break, and
    floats whose printed text holds no line break, the clean dataset
    written after a successful extraction is the batch itself, record by
    record and in its order: each record whose printed price reads back
    as a float gives one row with the record's symbol and that float,
    and each other record gives none.  Every symbol of the clean dataset
    is so the normalized form of a configured symbol. *)
Theorem clean_dataset_of_batch net ds fs fs1 csv :
  str_contains "," ds = false →
  str_contains CR ds = false →
  str_contains LF ds = false →
  (∀ x, str_contains CR (float_repr x) = false
        ∧ str_contains LF (float_repr x) = false) →
  Extract.extract_stock_data net ds fs = Ok (fs1, csv) →
  let all_data := Extract.for_symbols net ds 0 Extract.egx_symbols [] in
  ∃ fs2,
    Validate.validate_and_prepare (Pipeline.handoff ds csv) fs1
    = Ok (fs2, Validate.hql_script ds)
    ∧ fs2 !! Validate.hive_data ds
      = Some (Validate.hive_text (omap Pipeline.clean_row_of all_data))
    ∧ Validate.symbol <$> omap Pipeline.clean_row_of all_data
      `sublist_of` Extract.symbol <$> all_data
    ∧ (∀ r, r ∈ omap Pipeline.clean_row_of all_data →
            Validate.symbol r +:+ ".CA" ∈ Extract.egx_symbols).
Proof.
  intros Hcomma Hcr Hlf Hrepr (-> & -> & Hne)%extract_ok_inv all_data.
  pose proof (artifact_paths_distinct ds ds) as (Hch & Hcq & Hhq).
  eexists. erewrite validate_and_prepare_ok;
    [|reflexivity|apply lookup_insert_eq].
  simpl Validate.ds.
  rewrite (raw_artifact_lines net ds Hcr Hlf Hrepr). fold all_data.
  assert (Hdata : omap Validate.parse_row (Extract.csv_row <$> all_data)
                  = omap Pipeline.clean_row_of all_data).
  { apply (omap_parse_csv_rows net ds); [done|]. by apply Forall_forall. }
  rewrite Hdata.
  assert (Hnodup : NoDup (Validate.symbol <$> omap Pipeline.clean_row_of all_data)).
  { eapply sublist_NoDup; [|apply clean_rows_sublist].
    eapply sublist_NoDup; [apply clean_egx_symbols_NoDup|].
    unfold all_data. rewrite for_symbols_yields, app_nil_l.
    apply (batch_symbols_sublist net ds Extract.egx_symbols 0). }
  rewrite first_seen_id; [|done|by intros r _; apply not_elem_of_empty].
  split_and!; [done| |apply clean_rows_sublist|].
  - rewrite lookup_insert_ne by (by apply not_eq_sym).
    by rewrite lookup_insert_eq.
  - intros r Hr.
    assert (Hs : Validate.symbol r ∈ Extract.symbol <$> all_data).
    { eapply elem_of_sublist; [|apply clean_rows_sublist].
      by apply list_elem_of_fmap_2. }
    apply list_elem_of_fmap in Hs as (rec & -> & Hrec).
    apply batch_record in Hrec as (_ & s & Hs & ->).
    by rewrite <-egx_symbols_suffix.
Qed.

End PipelineProps.

(** ** The load script *)

Section ScriptProps.
Import Hive.

(** Both texts are concatenations of literals and of the two
    interpolated strings: nest every concatenation to the right and
    compute the literals. *)
Lemma hql_text_render_script (hive_data execution_date : string) :
  Validate.hql_text hive_data execution_date
  = render_script (load_steps hive_data execution_date).
Proof.
  unfold Validate.hql_text, Validate.hql_lines, render_script, load_steps.
  unfold str_concat. simpl.
  unfold render_step, render, render_create. simpl.
  rewrite !string_app_assoc.
  reflexivity.
Qed.

(** C7. The text written to the script is the rendering of seven
    statements in this order: create the two-column staging table if it
    does not exist; create the target table if it does not exist,
    partitioned by the date column, stored as ORC with SNAPPY
    compression; truncate staging; load the clean dataset file into
    staging; drop the target's partition of the run date if it exists;
    insert the staging rows into that partition; count the rows of that
    partition.  The path of the clean dataset and the run date are
    interpolated in the load, drop, insert and count statements. *)
Theorem load_script_statements_in_order (hive_data execution_date : string) :
  Validate.hql_text hive_data execution_date
  = render_script (load_steps hive_data execution_date)
  ∧ load_script hive_data execution_date = [
      CreateTableIfNotExists egx30_staging;
      CreateTableIfNotExists egx30_stocks;
      TruncateTable "egx30_staging";
      LoadDataLocalInpath hive_data "egx30_staging";
      AlterTableDropIfExistsPartition "egx30_stocks" "trade_date" execution_date;
      InsertIntoPartitionSelect "egx30_stocks" "trade_date" execution_date
        ["stock_symbol"; "price"] "egx30_staging";
      SelectCountOfPartition "egx30_stocks" "trade_date" execution_date
    ]
  ∧ render_script (load_steps hive_data execution_date)
    = str_concat (imap render_step (load_steps hive_data execution_date))
  ∧ name egx30_staging = "egx30_staging"
  ∧ fst <$> columns egx30_staging = ["stock_symbol"; "price"]
  ∧ partitioned_by egx30_staging = []
  ∧ name egx30_stocks = "egx30_stocks"
  ∧ fst <$> columns egx30_stocks = ["stock_symbol"; "price"]
  ∧ fst <$> partitioned_by egx30_stocks = ["trade_date"]
  ∧ stored_as egx30_stocks = "ORC"
  ∧ tblproperties egx30_stocks = [("orc.compress", "SNAPPY")].
Proof. split_and!; [apply hql_text_render_script|reflexivity..]. Qed.

(** *** Running the script *)

Implicit Types (local : files) (w : warehouse) (out : list (list string)).

Lemma run_cons local w s rest w2 out :
  run local w (s :: rest) = Some (w2, out) ↔
  ∃ w1 o1 o2, exec local w s = Some (w1, o1)
              ∧ run local w1 rest = Some (w2, o2) ∧ out = o1 ++ o2.
Proof.
  simpl. destruct (exec local w s) as [[w1 o1]|] eqn:He; simpl.
  - destruct (run local w1 rest) as [[w2' o2]|] eqn:Hr; simpl.
    + split.
      * intros ?; simplify_eq. by exists w1, o1, o2.
      * intros (? & ? & ? & ? & ? & ->). by simplify_eq.
    + split; [done|]. intros (? & ? & ? & ? & ? & ->). by simplify_eq.
  - split; [done|]. by intros (? & ? & ? & ? & _).
Qed.

Lemma exec_create local w d w' out :
  exec local w (CreateTableIfNotExists d) = Some (w', out) →
  out = [] ∧ is_Some (w' !! name d) ∧ ∀ t, t ≠ name d → w' !! t = w !! t.
Proof.
  simpl. destruct (w !! name d) as [tb|] eqn:Hw; intros ?; simplify_eq.
  - by rewrite Hw.
  - rewrite lookup_insert_eq. split_and!; [done..|].
    intros t Ht. by rewrite lookup_insert_ne.
Qed.

Lemma run_loaded local w w1 out hive_data execution_date :
  run local w (load_script hive_data execution_date) = Some (w1, out) →
  ∃ selected,
    loaded local hive_data execution_date w1 selected
    ∧ out = count_output execution_date selected.
Proof.
  unfold load_script, load_steps. simpl fmap.
  intros (wa & oa & ? & Ha & Hrun)%run_cons.
  destruct Hrun as [(wb & ob & ? & Hb & Hrun)%run_cons ->].
  destruct Hrun as [(wc & oc & ? & Hc & Hrun)%run_cons ->].
  destruct Hrun as [(wd & od & ? & Hd & Hrun)%run_cons ->].
  destruct Hrun as [(we & oe & ? & He & Hrun)%run_cons ->].
  destruct Hrun as [(wf & ofs & ? & Hf & Hrun)%run_cons ->].
  destruct Hrun as [(wg & og & ? & Hg & Hnil & ->)%run_cons ->].
  simpl in Hnil. simplify_eq.
  apply exec_create in Ha as (-> & [st0 Hst0] & _).
  apply exec_create in Hb as (-> & [tg0 Htg0] & Hb).
  rewrite <-Hb in Hst0 by done. clear Hb.
  simpl in Hc, Hd, He, Hf, Hg.
  change (name egx30_staging) with "egx30_staging" in *.
  change (name egx30_stocks) with "egx30_stocks" in *.
  rewrite Hst0 in Hc. simpl in Hc. simplify_eq.
  destruct (local !! hive_data) as [contents|] eqn:Hlocal; [|done].
  simpl in Hd. rewrite lookup_insert_eq in Hd. simpl in Hd.
  destruct (is_flat (def st0)) eqn:Hflat; [|done]. simplify_eq.
  rewrite insert_insert_eq in He.
  rewrite lookup_insert_ne, Htg0 in He by done. simpl in He.
  destruct (is_partition_column (def tg0) "trade_date") eqn:Hpcol; [|done].
  simplify_eq.
  rewrite lookup_insert_eq in Hf. simpl in Hf.
  rewrite lookup_insert_ne, lookup_insert_eq in Hf by done. simpl in Hf.
  rewrite Hpcol, Hflat in Hf. simpl in Hf.
  destruct (mapM _ (text_rows contents)) as [selected|] eqn:Hsel; [|done].
  simpl in Hf. rewrite lookup_delete_eq in Hf. simpl in Hf. simplify_eq.
  rewrite lookup_insert_eq in Hg. simpl in Hg.
  rewrite Hpcol, lookup_insert_eq in Hg. simpl in Hg.
  rewrite insert_insert_eq in Hg.
  assert (w1 = <["egx30_stocks" := {|
                   def := def tg0; rows := rows tg0;
                   parts := <[execution_date := selected]>
                              (delete execution_date (parts tg0)) |}]>
                 (<["egx30_staging" := {|
                      def := def st0; rows := text_rows contents;
                      parts := (λ _, []) <$> parts st0 |}]> wb)
          ∧ og = count_output execution_date selected) as [-> ->].
  { destruct selected; by simplify_eq. }
  clear Hg. exists selected. split; [|by rewrite app_nil_r].
  eexists _, _, contents.
  rewrite lookup_insert_eq.
  rewrite lookup_insert_ne, lookup_insert_eq by done. simpl.
  split_and!; try done; simpl.
  - apply map_eq. intros k. rewrite !lookup_fmap.
    by destruct (parts st0 !! k).
  - by rewrite lookup_insert_eq.
Qed.

Lemma loaded_run local w selected hive_data execution_date :
  loaded local hive_data execution_date w selected →
  run local w (load_script hive_data execution_date)
  = Some (w, count_output execution_date selected).
Proof.
  intros (st & tg & contents & Hst & Htg & Hlocal & Hflat & Hpcol
          & Hrows & Hparts & Hsel & Hds).
  assert (Hne : "egx30_stocks" ≠ "egx30_staging") by done.
  assert (Hst_id : ∀ x, <["egx30_staging" := st]> (<["egx30_staging" := x]> w) = w).
  { intros x. rewrite insert_insert_eq. by apply insert_id. }
  assert (Htg_id : ∀ x, <["egx30_stocks" := tg]> (<["egx30_stocks" := x]> w) = w).
  { intros x. rewrite insert_insert_eq. by apply insert_id. }
  unfold load_script, load_steps. simpl fmap.
  apply run_cons. exists w, [], (count_output execution_date selected).
  split_and!; [simpl; change (name egx30_staging) with "egx30_staging";
               by rewrite Hst| |done].
  apply run_cons. exists w, [], (count_output execution_date selected).
  split_and!; [simpl; change (name egx30_stocks) with "egx30_stocks";
               by rewrite Htg| |done].
  apply run_cons.
  exists (<["egx30_staging" := {| def := def st; rows := [];
                                  parts := (λ _, []) <$> parts st |}]> w),
    [], (count_output execution_date selected).
  split_and!; [simpl; by rewrite Hst| |done].
  apply run_cons. exists w, [], (count_output execution_date selected).
  split_and!; [|clear Hst_id|done].
  { simpl. rewrite Hlocal. simpl. rewrite lookup_insert_eq. simpl.
    rewrite Hflat. rewrite <-Hrows, <-Hparts.
    replace {| def := def st; rows := rows st; parts := parts st |}
      with st by by destruct st.
    by rewrite Hst_id. }
  apply run_cons.
  exists (<["egx30_stocks" := {| def := def tg; rows := rows tg;
                                 parts := delete execution_date (parts tg) |}]> w),
    [], (count_output execution_date selected).
  split_and!; [simpl; rewrite Htg; simpl; by rewrite Hpcol| |done].
  apply run_cons. exists w, [], (count_output execution_date selected).
  split_and!; [|clear Htg_id|done].
  { simpl. rewrite lookup_insert_eq. simpl.
    rewrite lookup_insert_ne, Hst by done. simpl.
    rewrite Hpcol, Hflat, Hsel. simpl.
    rewrite lookup_delete_eq. simpl.
    rewrite (insert_delete_id (parts tg)) by done.
    replace {| def := def tg; rows := rows tg; parts := parts tg |}
      with tg by by destruct tg.
    by rewrite Htg_id. }
  apply run_cons. exists w, (count_output execution_date selected), [].
  split_and!; [|done|by rewrite app_nil_r].
  simpl. rewrite Htg. simpl. rewrite Hpcol, Hds. simpl.
  by destruct selected.
Qed.

(** C2. A second run of the load script for the same run date, after a
    run that succeeded, succeeds too, prints the same count and leaves
    the warehouse as the first run left it: the partition of the run
    date holds one row per line of the clean dataset file, once, and
    the count printed is the number of its rows. *)
Theorem load_script_is_idempotent local w w1 out hive_data execution_date :
  run local w (load_script hive_data execution_date) = Some (w1, out) →
  run local w1 (load_script hive_data execution_date) = Some (w1, out)
  ∧ (∀ w2 out2,
       run local w1 (load_script hive_data execution_date) = Some (w2, out2) →
       partition_rows w2 "egx30_stocks" execution_date
       = partition_rows w1 "egx30_stocks" execution_date)
  ∧ (∃ contents,
       local !! hive_data = Some contents
       ∧ length (partition_rows w1 "egx30_stocks" execution_date)
         = length (text_rows contents))
  ∧ out = count_output execution_date
            (partition_rows w1 "egx30_stocks" execution_date).
Proof.
  intros (selected & Hloaded & ->)%run_loaded.
  pose proof (loaded_run _ _ _ _ _ Hloaded) as Hrun.
  destruct Hloaded as (st & tg & contents & Hst & Htg & Hlocal & Hflat & Hpcol
                       & Hrows & Hparts & Hsel & Hds).
  assert (Hrows1 : partition_rows w1 "egx30_stocks" execution_date = selected).
  { unfold partition_rows. rewrite Htg. simpl. by rewrite Hds. }
  rewrite Hrows1. split_and!; [done| |exists contents; split; [done|]|done].
  - intros w2 out2 Hrun2. rewrite Hrun in Hrun2. by simplify_eq.
  - apply length_mapM in Hsel. by rewrite <-Hsel, Hrows.
Qed.

End ScriptProps.

(** ** The stages on concrete inputs *)

Section Runs.
Local Existing Instance DecimalFloat.floats.
Import Demo.

(** *** Extraction *)

(** One symbol answers, eight time out: the batch has one record. *)
Example extract_partial_failure :
  ∃ fs, Extract.extract_stock_data net_float ds ∅ = Ok (fs, "/tmp/egx30_2024-01-02.csv")
        ∧ fs !! "/tmp/egx30_2024-01-02.csv"
          = Some ("date,stock_symbol,price" +:+ nl
                  +:+ "2024-01-02,EGS01041C010,123.46" +:+ nl).
Proof. eexists. split; [reflexivity|]. by vm_compute. Qed.

(** Every request fails: the stage raises. *)
Example extract_all_fail :
  Extract.extract_stock_data net_down ds ∅ = Raise (ValueError "No data extracted").
Proof. reflexivity. Qed.

(** A null close, an empty close list and a null result give no record;
    a document that is not an object raises inside the [try]. *)
Example first_close_cases :
  Extract.first_close (Extract.chart_document [JNull; JInt 3]) = Ok None
  ∧ Extract.first_close (Extract.chart_document []) = Ok None
  ∧ Extract.first_close (JObj [("chart", JObj [("result", JNull)])]) = Ok None
  ∧ Extract.first_close (JArr []) = Raise AttributeError
  ∧ Extract.first_close (Extract.chart_document [JInt 3; JNull]) = Ok (Some (JInt 3)).
Proof. by split_and!. Qed.


(** A float close with one decimal is written with one. *)
Example float_close_is_not_padded :
  Extract.csv_row <$> Extract.yields
    (first_only [JFloat (DecimalFloat.lit "45.5")]) ds 0 "EGS01041C010.CA"
  = ["2024-01-02,EGS01041C010,45.5" +:+ nl].
Proof. reflexivity. Qed.


(** *** Validation *)

(** Rows [(X, 10.00)] then [(X, 20.00)]: only the first is kept. *)
Example dedup_keeps_first :
  ∃ fs, Validate.validate_and_prepare ctx (raw_at (Extract.csv_path ds) raw_duplicate)
        = Ok (fs, "/tmp/load_hive_2024-01-02.hql")
        ∧ fs !! "/tmp/hive_data_2024-01-02.txt" = Some ("X,10.0" +:+ nl).
Proof. eexists. split; [reflexivity|]. by vm_compute. Qed.


(** A two-field row between two good rows is dropped and the good rows
    are kept. *)
Example short_row_is_dropped :
  ∃ fs, Validate.validate_and_prepare ctx
          (raw_at (Extract.csv_path ds) raw_with_short_row)
        = Ok (fs, "/tmp/load_hive_2024-01-02.hql")
        ∧ fs !! "/tmp/hive_data_2024-01-02.txt"
          = Some ("A,1.5" +:+ nl +:+ "C,2.25" +:+ nl).
Proof. eexists. split; [reflexivity|]. by vm_compute. Qed.

Lemma short_row_is_malformed : Validate.malformed ("2024-01-02,B" +:+ nl).
Proof. left. vm_compute. lia. Defined.

Lemma malformed_rows_are_skipped_witness :
  Validate.malformed ("2024-01-02,B" +:+ nl)
  ∧ Validate.loop_body [] ("2024-01-02,B" +:+ nl) = Ok []
  ∧ Validate.for_lines
      ["2024-01-02,A,1.50" +:+ nl; "2024-01-02,B" +:+ nl; "2024-01-02,C,2.25" +:+ nl] []
    = Validate.for_lines
        ["2024-01-02,A,1.50" +:+ nl; "2024-01-02,C,2.25" +:+ nl] []
  ∧ ∃ out out',
      Validate.validate_and_prepare ctx
        (raw_at (Extract.csv_path ds) raw_with_short_row) = Ok out
      ∧ Validate.validate_and_prepare ctx
          (raw_at (Extract.csv_path ds) raw_without_short_row) = Ok out'
      ∧ out.1 !! Validate.hive_data ds = out'.1 !! Validate.hive_data ds.
Proof.
  pose proof (malformed_rows_are_skipped ("2024-01-02,B" +:+ nl))
    as (Hskip & _ & Hframe & _ & Hstage).
  split; [exact short_row_is_malformed|]. split; [|split].
  - exact (proj2 (Hskip []) short_row_is_malformed).
  - exact (Hframe short_row_is_malformed
             ["2024-01-02,A,1.50" +:+ nl] ["2024-01-02,C,2.25" +:+ nl] []).
  - apply (Hstage short_row_is_malformed ctx
             (raw_at (Extract.csv_path ds) raw_with_short_row)
             (raw_at (Extract.csv_path ds) raw_without_short_row)
             (Extract.csv_path ds) raw_with_short_row raw_without_short_row
             ("date,stock_symbol,price" +:+ nl)
             ["2024-01-02,A,1.50" +:+ nl] ["2024-01-02,C,2.25" +:+ nl]);
      first [reflexivity | by vm_compute].
Defined.

Lemma all_rows_malformed (line : string) :
  line ∈ drop 1 (file_lines (universal_newlines raw_all_malformed)) →
  Validate.malformed line.
Proof.
  change (drop 1 (file_lines (universal_newlines raw_all_malformed)))
    with ["2024-01-02,B" +:+ nl; "2024-01-02,C,n/a" +:+ nl; nl].
  intros Hl. repeat apply elem_of_cons in Hl as [->|Hl].
  - left. vm_compute. lia.
  - right. reflexivity.
  - left. vm_compute. lia.
  - by apply elem_of_nil in Hl.
Defined.

Lemma all_malformed_gives_empty_dataset_witness :
  ∃ fs',
    Validate.validate_and_prepare ctx
      (raw_at (Extract.csv_path ds) raw_all_malformed)
    = Ok (fs', Validate.hql_script ds)
    ∧ fs' !! Validate.hive_data ds = Some ""
    ∧ fs' !! Validate.hql_script ds
      = Some (Validate.hql_text (Validate.hive_data ds) ds).
Proof.
  apply (all_malformed_gives_empty_dataset ctx
           (raw_at (Extract.csv_path ds) raw_all_malformed)
           (Extract.csv_path ds) raw_all_malformed).
  - reflexivity.
  - by vm_compute.
  - exact all_rows_malformed.
Defined.

Lemma validate_outputs_depend_on_contents_and_date_witness :
  ∃ fs1' fs2' script_path clean script,
    Validate.validate_and_prepare (ctx_at "/tmp/a.csv")
      (raw_at "/tmp/a.csv" raw_duplicate) = Ok (fs1', script_path)
    ∧ Validate.validate_and_prepare (ctx_at "/data/b.csv")
        (<["/tmp/other" := "x"]> (raw_at "/data/b.csv" raw_duplicate))
      = Ok (fs2', script_path)
    ∧ fs1' !! Validate.hive_data ds = Some clean
    ∧ fs2' !! Validate.hive_data ds = Some clean
    ∧ fs1' !! script_path = Some script
    ∧ fs2' !! script_path = Some script
    ∧ (∀ p, p ≠ Validate.hive_data ds → p ≠ script_path →
            fs1' !! p = raw_at "/tmp/a.csv" raw_duplicate !! p
            ∧ fs2' !! p
              = <["/tmp/other" := "x"]> (raw_at "/data/b.csv" raw_duplicate) !! p).
Proof.
  apply (validate_outputs_depend_on_contents_and_date
           (ctx_at "/tmp/a.csv") (ctx_at "/data/b.csv")
           (raw_at "/tmp/a.csv" raw_duplicate)
           (<["/tmp/other" := "x"]> (raw_at "/data/b.csv" raw_duplicate))
           "/tmp/a.csv" "/data/b.csv" raw_duplicate);
    first [reflexivity | by vm_compute].
Defined.

(** *** The load script *)

(** On an empty warehouse the script succeeds and loads the two rows. *)
Example load_script_runs :
  Hive.run clean_file ∅ (Hive.load_script (Validate.hive_data ds) ds)
  = Some (loaded_warehouse, [["2024-01-02"; "2"]])
  ∧ Hive.partition_rows loaded_warehouse "egx30_stocks" ds = clean_rows.
Proof. split; by vm_compute. Qed.

Lemma load_script_is_idempotent_witness :
  Hive.run clean_file ∅ (Hive.load_script (Validate.hive_data ds) ds)
  = Some (loaded_warehouse, [["2024-01-02"; "2"]])
  ∧ Hive.run clean_file loaded_warehouse
      (Hive.load_script (Validate.hive_data ds) ds)
    = Some (loaded_warehouse, [["2024-01-02"; "2"]]).
Proof.
  assert (Hrun : Hive.run clean_file ∅
                   (Hive.load_script (Validate.hive_data ds) ds)
                 = Some (loaded_warehouse, [["2024-01-02"; "2"]]))
    by (by vm_compute).
  split; [exact Hrun|].
  exact (proj1 (load_script_is_idempotent clean_file ∅ loaded_warehouse
                  [["2024-01-02"; "2"]] (Validate.hive_data ds) ds Hrun)).
Defined.

(** *** The pipeline end to end *)

(** The source returns the close 123.456 for the first symbol and times
    out for the others: the raw artifact has the one row
    [<date>,EGS01041C010,123.46], the clean dataset the one row
    [EGS01041C010,123.46], and the script names the clean dataset and
    the run date. *)
Example pipeline_end_to_end :
  ∃ fs1 csv fs2 hql,
    Extract.extract_stock_data net_float ds ∅ = Ok (fs1, csv)
    ∧ Validate.validate_and_prepare
        {| Validate.ds := ds; Validate.xcom_extract_data := Some csv |} fs1
      = Ok (fs2, hql)
    ∧ fs2 !! csv = Some ("date,stock_symbol,price" +:+ nl
                         +:+ "2024-01-02,EGS01041C010,123.46" +:+ nl)
    ∧ fs2 !! "/tmp/hive_data_2024-01-02.txt"
      = Some ("EGS01041C010,123.46" +:+ nl)
    ∧ fs2 !! hql
      = Some (Hive.render_script
                (Hive.load_steps "/tmp/hive_data_2024-01-02.txt" "2024-01-02")).
Proof.
  eexists _, _, _, _. split_and!; [reflexivity|reflexivity|by vm_compute..].
Qed.

End Runs.
